(** * Tool routing, agent loops and response adapters of AI-agents-learning

    A shallow embedding of the control-flow core of the lessons:

    - [Json]: the [json.dumps] and [json.loads] calls the lessons rely on;
    - [Mcp], [OpenAI]: the protocol and message types the clients exchange;
    - [Router]: [lesson_5/src/clients/multi_mcp_client.py];
    - [Adapter]: [lesson_5/src/clients/ollama_client.py] and [llm_client.py];
    - [Lesson1], [Lesson2]: the agents of [lesson_1/main.py] and
      [lesson_2/main.py];
    - [Graph]: the cache-check node of [lesson_6/02_langgraph/graph.py];
    - [Lesson2Tools], [Listing], [Setup], [Nodes]: the tool-list
      conversion of [lesson_2/main.py], the tool listing of the router,
      the constructors of the two LLM clients and the other nodes of
      [graph.py].

    A Python [str] is a sequence of Unicode code points: [str] below is
    [list N], and [py] gives the code points of an ASCII literal.
    External collaborators (the LLM endpoint, the MCP servers, the
    weather service) are arguments of the embedded functions.  The
    definitions come first, the theorems about them after. *)

From Stdlib Require Import ZArith NArith List String Ascii Lia Bool Decimal.
From Stdlib Require DecimalFacts DecimalPos DecimalN DecimalZ.
From stdpp Require Import base option list gmap strings.

(** ** Strings and outcomes *)

Abbreviation str := (list N).

(** The code points of an ASCII literal. *)
Fixpoint py (s : string) : str :=
  match s with
  | EmptyString => []
  | String a r => N_of_ascii a :: py r
  end.

Arguments py : simpl never.

(** [sep.join(parts)] *)
Fixpoint join (sep : str) (parts : list str) : str :=
  match parts with
  | [] => []
  | [p] => p
  | p :: rest => p ++ sep ++ join sep rest
  end.

(** [s.rstrip(c)] for a one-character argument. *)
Fixpoint rstrip (c : N) (s : str) : str :=
  match s with
  | [] => []
  | x :: r =>
      match rstrip c r with
      | [] => if (x =? c)%N then [] else [x]
      | r' => x :: r'
      end
  end.

(** [needle in haystack] *)
Fixpoint startswith (prefix s : str) : bool :=
  match prefix, s with
  | [], _ => true
  | _ :: _, [] => false
  | p :: prefix', c :: s' => (p =? c)%N && startswith prefix' s'
  end.

Fixpoint contains (needle haystack : str) : bool :=
  startswith needle haystack ||
  match haystack with
  | [] => false
  | _ :: rest => contains needle rest
  end.

(** Python exceptions that the embedded code can meet.  [Remote text] is an
    exception raised by an external collaborator, with [str(e) = text]. *)
Inductive exn :=
| JSONDecodeError
| KeyError (key : str)
| TypeError
| RuntimeError (msg : str)
| Remote (text : str).

(** The result of running a Python function.  [OutOfModel] marks a run
    about which nothing is said: it reaches a floating-point number, or
    a state that no run of the program produces. *)
Inductive outcome (A : Type) :=
| Returned (a : A)
| Raised (e : exn)
| OutOfModel.
Arguments Returned {A} a.
Arguments Raised {A} e.
Arguments OutOfModel {A}.

(** What an awaited external call produces. *)
Inductive reply (A : Type) :=
| Reply (a : A)
| Failure (text : str).
Arguments Reply {A} a.
Arguments Failure {A} text.

(** ** JSON, as the standard [json] module reads and writes it

    The lessons serialize and parse with [json.dumps] and [json.loads] of
    the Python standard library.  This module follows [json/encoder.py],
    [json/decoder.py] and [json/scanner.py] for the default arguments.
    Floating-point numbers are not modelled, nor are the interpreter's
    limits on recursion depth and on the length of decimal integers. *)

Module Json.
Local Open Scope N_scope.

(** Values of [json.loads]; floats are left out.  An object keeps its
    members in insertion order, as a [dict] does. *)
Unset Elimination Schemes.
Inductive json :=
| JNull
| JBool (b : bool)
| JInt (n : Z)
| JStr (s : str)
| JArr (items : list json)
| JObj (members : list (str * json)).
Set Elimination Schemes.

(** Induction on JSON values, through arrays and objects. *)
Definition json_ind (P : json -> Prop)
    (HNull : P JNull) (HBool : forall b, P (JBool b)) (HInt : forall n, P (JInt n))
    (HStr : forall s, P (JStr s))
    (HArr : forall items, Forall P items -> P (JArr items))
    (HObj : forall members, Forall (fun kv => P (snd kv)) members -> P (JObj members))
    : forall v, P v :=
  fix go (v : json) : P v :=
    match v with
    | JNull => HNull
    | JBool b => HBool b
    | JInt n => HInt n
    | JStr s => HStr s
    | JArr items =>
        HArr items
          ((fix all (l : list json) : Forall P l :=
              match l with
              | [] => @List.Forall_nil _ P
              | x :: l' => @List.Forall_cons _ P x l' (go x) (all l')
              end) items)
    | JObj members =>
        HObj members
          ((fix all (l : list (str * json)) : Forall (fun kv => P (snd kv)) l :=
              match l with
              | [] => @List.Forall_nil _ (fun kv => P (snd kv))
              | kv :: l' => @List.Forall_cons _ (fun kv => P (snd kv)) kv l' (go (snd kv)) (all l')
              end) members)
    end.

(** [d[k] = v] on an insertion-ordered dict. *)
Fixpoint dict_set {V : Type} (k : str) (v : V) (d : list (str * V)) : list (str * V) :=
  match d with
  | [] => [(k, v)]
  | (k', v') :: rest =>
      if decide (k' = k) then (k, v) :: rest else (k', v') :: dict_set k v rest
  end.

(** [d.get(k)] *)
Fixpoint dict_get {V : Type} (k : str) (d : list (str * V)) : option V :=
  match d with
  | [] => None
  | (k', v) :: rest => if decide (k' = k) then Some v else dict_get k rest
  end.

(** [dict(pairs)] *)
Definition dict {V : Type} (pairs : list (str * V)) : list (str * V) :=
  fold_left (fun d kv => dict_set (fst kv) (snd kv) d) pairs [].

(** *** Encoder *)

Definition hex_digit (d : N) : N := if d <? 10 then 48 + d else 87 + d.

(** [format(n, "04x")] for [n < 0x10000] *)
Definition hex4 (n : N) : str :=
  [hex_digit (n / 4096 mod 16); hex_digit (n / 256 mod 16);
   hex_digit (n / 16 mod 16); hex_digit (n mod 16)].

Definition u_escape (n : N) : str := 92 :: 117 :: hex4 n.

(** The two-character entries of [ESCAPE_DCT]. *)
Definition escape_short (c : N) : option str :=
  if c =? 92 then Some [92; 92]
  else if c =? 34 then Some [92; 34]
  else if c =? 8 then Some [92; 98]
  else if c =? 12 then Some [92; 102]
  else if c =? 10 then Some [92; 110]
  else if c =? 13 then Some [92; 114]
  else if c =? 9 then Some [92; 116]
  else None.

(** One character of [encode_basestring_ascii] ([ensure_ascii = true]) or
    of [encode_basestring]. *)
Definition escape_char (ensure_ascii : bool) (c : N) : str :=
  match escape_short c with
  | Some e => e
  | None =>
      if c <? 32 then u_escape c
      else if ensure_ascii && (126 <? c) then
        if c <? 65536 then u_escape c
        else
          let v := c - 65536 in
          u_escape (N.lor 55296 (N.land (N.shiftr v 10) 1023)) ++
          u_escape (N.lor 56320 (N.land v 1023))
      else [c]
  end.

Definition encode_basestring (ensure_ascii : bool) (s : str) : str :=
  34 :: flat_map (escape_char ensure_ascii) s ++ [34].

Fixpoint uint_chars (u : Decimal.uint) : str :=
  match u with
  | Nil => []
  | D0 r => 48 :: uint_chars r
  | D1 r => 49 :: uint_chars r
  | D2 r => 50 :: uint_chars r
  | D3 r => 51 :: uint_chars r
  | D4 r => 52 :: uint_chars r
  | D5 r => 53 :: uint_chars r
  | D6 r => 54 :: uint_chars r
  | D7 r => 55 :: uint_chars r
  | D8 r => 56 :: uint_chars r
  | D9 r => 57 :: uint_chars r
  end.

(** [int.__repr__] *)
Definition int_repr (z : Z) : str :=
  match Z.to_int z with
  | Decimal.Pos u => uint_chars u
  | Decimal.Neg u => 45 :: uint_chars u
  end.

(** [json.dumps(v, ensure_ascii=...)] with the default separators
    [", "] and [": "]. *)
Fixpoint dumps (ensure_ascii : bool) (v : json) : str :=
  match v with
  | JNull => py "null"
  | JBool true => py "true"
  | JBool false => py "false"
  | JInt n => int_repr n
  | JStr s => encode_basestring ensure_ascii s
  | JArr items => 91 :: join (py ", ") (map (dumps ensure_ascii) items) ++ [93]
  | JObj members =>
      123 :: join (py ", ")
               (map (fun kv => encode_basestring ensure_ascii (fst kv) ++ py ": " ++
                               dumps ensure_ascii (snd kv)) members) ++ [125]
  end.

(** *** Decoder *)

(** A scanner's result: a value and the unread input, a
    [JSONDecodeError], or a floating-point literal on the way. *)
Inductive parse (A : Type) :=
| Parsed (a : A) (rest : str)
| Malformed
| FloatSeen.
Arguments Parsed {A} a rest.
Arguments Malformed {A}.
Arguments FloatSeen {A}.

Definition bindP {A B : Type} (p : parse A) (k : A -> str -> parse B) : parse B :=
  match p with
  | Parsed a rest => k a rest
  | Malformed => Malformed
  | FloatSeen => FloatSeen
  end.

Definition is_ws (c : N) : bool := (c =? 32) || (c =? 9) || (c =? 10) || (c =? 13).

Fixpoint skip_ws (s : str) : str :=
  match s with
  | c :: r => if is_ws c then skip_ws r else s
  | [] => []
  end.

Definition is_digit (c : N) : bool := (48 <=? c) && (c <=? 57).

Definition hex_value (c : N) : option N :=
  if (48 <=? c) && (c <=? 57) then Some (c - 48)
  else if (97 <=? c) && (c <=? 102) then Some (c - 87)
  else if (65 <=? c) && (c <=? 70) then Some (c - 55)
  else None.

(** [_decode_uXXXX]: four hexadecimal digits. *)
Definition decode_uXXXX (s : str) : option (N * str) :=
  match s with
  | a :: b :: c :: d :: rest =>
      match hex_value a, hex_value b, hex_value c, hex_value d with
      | Some x, Some y, Some z, Some w => Some (((x * 16 + y) * 16 + z) * 16 + w, rest)
      | _, _, _, _ => None
      end
  | _ => None
  end.

(** The code point after [\u], joining a surrogate pair. *)
Definition scan_unicode_escape (s : str) : option (N * str) :=
  match decode_uXXXX s with
  | None => None
  | Some (uni, r) =>
      if (55296 <=? uni) && (uni <=? 56319) && startswith [92; 117] r then
        match decode_uXXXX (drop 2 r) with
        | None => None
        | Some (uni2, r') =>
            if (56320 <=? uni2) && (uni2 <=? 57343)
            then Some (65536 + N.lor (N.shiftl (uni - 55296) 10) (uni2 - 56320), r')
            else Some (uni, r)
        end
      else Some (uni, r)
  end.

(** The [BACKSLASH] table. *)
Definition backslash (esc : N) : option N :=
  if esc =? 34 then Some 34
  else if esc =? 92 then Some 92
  else if esc =? 47 then Some 47
  else if esc =? 98 then Some 8
  else if esc =? 102 then Some 12
  else if esc =? 110 then Some 10
  else if esc =? 114 then Some 13
  else if esc =? 116 then Some 9
  else None.

(** [scanstring(s, end, strict=True)], started after the opening quote.
    Every round reads at least one character, so [length s] rounds are
    enough for [s]. *)
Fixpoint scanstring (fuel : nat) (s : str) : parse str :=
  match fuel with
  | O => Malformed
  | S fuel =>
      match s with
      | [] => Malformed
      | c :: r =>
          if c =? 34 then Parsed [] r
          else if c =? 92 then
            match r with
            | [] => Malformed
            | esc :: r1 =>
                if esc =? 117 then
                  match scan_unicode_escape r1 with
                  | None => Malformed
                  | Some (ch, r2) =>
                      bindP (scanstring fuel r2) (fun t rest => Parsed (ch :: t) rest)
                  end
                else
                  match backslash esc with
                  | None => Malformed
                  | Some ch =>
                      bindP (scanstring fuel r1) (fun t rest => Parsed (ch :: t) rest)
                  end
            end
          else if c <? 32 then Malformed
          else bindP (scanstring fuel r) (fun t rest => Parsed (c :: t) rest)
      end
  end.

Definition digit_of (c : N) : option (Decimal.uint -> Decimal.uint) :=
  if c =? 48 then Some D0 else if c =? 49 then Some D1
  else if c =? 50 then Some D2 else if c =? 51 then Some D3
  else if c =? 52 then Some D4 else if c =? 53 then Some D5
  else if c =? 54 then Some D6 else if c =? 55 then Some D7
  else if c =? 56 then Some D8 else if c =? 57 then Some D9
  else None.

(** The longest run of decimal digits at the head of [s]. *)
Fixpoint scan_digits (s : str) : Decimal.uint * str :=
  match s with
  | [] => (Nil, [])
  | c :: r =>
      match digit_of c with
      | Some d => let (u, rest) := scan_digits r in (d u, rest)
      | None => (Nil, s)
      end
  end.

(** After the integer part: a fraction (a dot and a digit) or an exponent
    (e or E, an optional sign, a digit) makes the number a float. *)
Definition float_tail (r : str) : bool :=
  match r with
  | c :: d :: r' =>
      ((c =? 46) && is_digit d) ||
      (((c =? 101) || (c =? 69)) &&
       (is_digit d ||
        (((d =? 43) || (d =? 45)) && match r' with x :: _ => is_digit x | [] => false end)))
  | _ => false
  end.

(** [NUMBER_RE.match]: an optional minus sign, then either a single zero
    or a non-zero digit followed by digits; and the constants [NaN],
    [Infinity], [-Infinity] tried after it. *)
Definition scan_number (s : str) : parse json :=
  let neg := startswith [45] s in
  let s1 := if neg then drop 1 s else s in
  match s1 with
  | c :: r =>
      if is_digit c then
        let (u, rest) := if c =? 48 then (D0 Nil, r) else scan_digits s1 in
        if float_tail rest then FloatSeen
        else Parsed (JInt (if neg then Z.opp (Z.of_uint u) else Z.of_uint u)) rest
      else if startswith (py "NaN") s || startswith (py "Infinity") s
              || startswith (py "-Infinity") s then FloatSeen
      else Malformed
  | [] => Malformed
  end.

(** [scan_once], with [JSONArray] and [JSONObject] entered after the
    opening bracket ([array_items] at an element, [object_pairs] after the
    opening quote of a key).  [fuel] bounds the nesting of calls: a call
    on a value needs no more levels than the value has characters
    ([scan_once_dumps] shows it for the texts that [dumps] writes). *)
Fixpoint scan_once (fuel : nat) (s : str) : parse json :=
  match fuel with
  | O => Malformed
  | S fuel =>
      match s with
      | [] => Malformed
      | c :: r =>
          if c =? 34 then
            bindP (scanstring (length r) r) (fun t rest => Parsed (JStr t) rest)
          else if c =? 123 then
            match skip_ws r with
            | c1 :: r1 =>
                if c1 =? 125 then Parsed (JObj []) r1
                else if c1 =? 34 then
                  bindP (object_pairs fuel r1) (fun ps rest => Parsed (JObj (dict ps)) rest)
                else Malformed
            | [] => Malformed
            end
          else if c =? 91 then
            match skip_ws r with
            | c1 :: r1 =>
                if c1 =? 93 then Parsed (JArr []) r1
                else bindP (array_items fuel (c1 :: r1)) (fun vs rest => Parsed (JArr vs) rest)
            | [] => Malformed
            end
          else if startswith (py "null") s then Parsed JNull (drop 4 s)
          else if startswith (py "true") s then Parsed (JBool true) (drop 4 s)
          else if startswith (py "false") s then Parsed (JBool false) (drop 5 s)
          else scan_number s
      end
  end
with array_items (fuel : nat) (s : str) : parse (list json) :=
  match fuel with
  | O => Malformed
  | S fuel =>
      bindP (scan_once fuel s) (fun v rest =>
        match skip_ws rest with
        | c :: r =>
            if c =? 93 then Parsed [v] r
            else if c =? 44 then
              bindP (array_items fuel (skip_ws r)) (fun vs rest' => Parsed (v :: vs) rest')
            else Malformed
        | [] => Malformed
        end)
  end
with object_pairs (fuel : nat) (s : str) : parse (list (str * json)) :=
  match fuel with
  | O => Malformed
  | S fuel =>
      bindP (scanstring (length s) s) (fun key rest =>
        match skip_ws rest with
        | c :: r =>
            if c =? 58 then
              bindP (scan_once fuel (skip_ws r)) (fun v rest1 =>
                match skip_ws rest1 with
                | c1 :: r1 =>
                    if c1 =? 125 then Parsed [(key, v)] r1
                    else if c1 =? 44 then
                      match skip_ws r1 with
                      | c2 :: r2 =>
                          if c2 =? 34 then
                            bindP (object_pairs fuel r2)
                                  (fun ps rest' => Parsed ((key, v) :: ps) rest')
                          else Malformed
                      | [] => Malformed
                      end
                    else Malformed
                | [] => Malformed
                end)
            else Malformed
        | [] => Malformed
        end)
  end.

(** What [json.loads] does with a text. *)
Inductive loaded :=
| Value (v : json)
| DecodeError
| HasFloat.

(** [json.loads(s)] for a [str] argument: no byte order mark, then one
    value between optional white space. *)
Definition loads (s : str) : loaded :=
  if startswith [65279] s then DecodeError
  else
    match scan_once (S (length s)) (skip_ws s) with
    | Parsed v rest => match skip_ws rest with [] => Value v | _ :: _ => DecodeError end
    | Malformed => DecodeError
    | FloatSeen => HasFloat
    end.

(** Unicode scalar values: the code points that are not surrogates. *)
Definition is_scalar (c : N) : bool :=
  (c <? 1114112) && negb ((55296 <=? c) && (c <=? 57343)).

Definition valid_str (s : str) : bool := forallb is_scalar s.

(** Structured data that a JSON text can hold: strings of scalar values,
    and no key twice in an object (which a [dict] cannot have). *)
Fixpoint valid (v : json) : bool :=
  match v with
  | JStr s => valid_str s
  | JArr items => forallb valid items
  | JObj members =>
      bool_decide (NoDup (map fst members)) &&
      forallb (fun kv => valid_str (fst kv) && valid (snd kv)) members
  | _ => true
  end.


(** *** Vocabulary of the round-trip proof *)

(** The first character of a text written by [dumps]. *)
Definition opens (c : N) : Prop :=
  c = 34 \/ c = 123 \/ c = 91 \/ c = 110 \/ c = 116 \/ c = 102 \/ c = 45 \/ is_digit c = true.

(** What may follow a value in a JSON text written by [dumps]. *)
Definition terminated (rest : str) : Prop :=
  match rest with
  | [] => True
  | c :: _ => c = 44 \/ c = 93 \/ c = 125
  end.

(** The text of an object after the opening quote of its first key. *)
Fixpoint object_body (ea : bool) (k : str) (x : json) (more : list (str * json)) : str :=
  flat_map (escape_char ea) k ++ 34 :: 58 :: 32 :: dumps ea x ++
  match more with
  | [] => []
  | kv :: more' => 44 :: 32 :: 34 :: object_body ea (fst kv) (snd kv) more'
  end.

(** The property proved of each value, by induction. *)
Definition reads_back (ea : bool) (v : json) : Prop :=
  valid v = true ->
  forall (fuel : nat) rest,
    (length (dumps ea v) <= fuel)%nat -> terminated rest ->
    scan_once fuel (dumps ea v ++ rest) = Parsed v rest.

End Json.


(** ** The MCP tool protocol, as the clients see it *)

Module Mcp.
Import Json.

(** One item of [response.content]: a [TextContent] has a [text]
    attribute, the other kinds (image, audio, resource) have none;
    [shown] is what [str(p)] prints for them. *)
Inductive ContentPart :=
| TextContent (text : str)
| OtherContent (shown : str).

Record CallToolResult := {
  content : list ContentPart;
  structuredContent : option json;
}.

(** An open [ClientSession], on the endpoint it was opened at. *)
Record ClientSession := { endpoint : str }.

(** [session.call_tool(name, arguments)] of a server. *)
Definition transport := ClientSession -> str -> json -> reply CallToolResult.

(** A server that answers every call with an empty result. *)
Definition silent : transport :=
  fun _ _ _ => Reply {| content := []; structuredContent := None |}.

End Mcp.

(** ** [lesson_5/src/clients/multi_mcp_client.py] *)

Module Router.
Import Json Mcp.

(** What a server does when [MCPServerConnection.connect] reaches it. *)
Inductive handshake :=
| TransportDown (text : str)
    (** entering the HTTP or the session context raises: [self.session]
        is not assigned *)
| ProtocolDown (text : str)
    (** [initialize()] or [list_tools()] raises, on the open session *)
| ToolsListed (names : list str).
    (** success; [names] are the names of [response.tools] *)

Module MCPServerConnection.

(** The private context handles are written and never read: left out. *)
Record t := mk {
  name : str;
  server_url : str;
  session : option ClientSession;
  tools : list str;
  _connected : bool;
}.

Definition __init__ (name server_url : str) : t :=
  mk name (rstrip 47%N server_url) None [] false.

Definition connect (h : handshake) (self : t) : t * outcome unit :=
  let opened := Some {| endpoint := server_url self ++ py "/mcp" |} in
  match h with
  | TransportDown text =>
      (mk (name self) (server_url self) (session self) (tools self) false,
       Raised (Remote text))
  | ProtocolDown text =>
      (mk (name self) (server_url self) opened (tools self) false,
       Raised (Remote text))
  | ToolsListed names =>
      (mk (name self) (server_url self) opened names true, Returned tt)
  end.

Definition disconnect (self : t) : t :=
  if negb (_connected self) then self
  else mk (name self) (server_url self) None (tools self) false.

End MCPServerConnection.

Module MultiMCPClient.

(** [connections] is the dict of connection objects, in insertion order.
    [_tool_to_server] holds references to those same objects: a
    reference is the key of the object in [connections]. *)
Record t := mk {
  connections : list (str * MCPServerConnection.t);
  _tool_to_server : gmap str str;
}.

Definition __init__ (servers : list (str * str)) : t :=
  mk (fold_left
        (fun d nu => dict_set (fst nu) (MCPServerConnection.__init__ (fst nu) (snd nu)) d)
        servers [])
     ∅.

(** The object a reference points to. *)
Definition deref (self : t) (ref : str) : option MCPServerConnection.t :=
  dict_get ref (connections self).

(** [for tool_name in conn.tools: self._tool_to_server[tool_name] = conn] *)
Definition register (ref : str) (names : list str) (reg : gmap str str) : gmap str str :=
  fold_left (fun m tool_name => <[tool_name := ref]> m) names reg.

(** The [for name, conn in self.connections.items()] loop of [connect]. *)
Fixpoint connect_each (net : str -> handshake)
    (conns : list (str * MCPServerConnection.t)) (reg : gmap str str)
    : list (str * MCPServerConnection.t) * gmap str str :=
  match conns with
  | [] => ([], reg)
  | (name, conn) :: rest =>
      let (conn', r) := MCPServerConnection.connect (net name) conn in
      let reg' :=
        match r with
        | Returned _ => register name (MCPServerConnection.tools conn') reg
        | _ => reg
        end in
      let (rest', reg'') := connect_each net rest reg' in
      ((name, conn') :: rest', reg'')
  end.

Definition connect (net : str -> handshake) (self : t) : t * outcome unit :=
  let (conns, reg) := connect_each net (connections self) (_tool_to_server self) in
  (mk conns reg,
   if decide (reg = ∅)
   then Raised (RuntimeError (py "Failed to connect to any MCP server"))
   else Returned tt).

Definition disconnect (self : t) : t :=
  mk (map (fun nc =>
             (fst nc,
              if MCPServerConnection._connected (snd nc)
              then MCPServerConnection.disconnect (snd nc) else snd nc))
          (connections self))
     (_tool_to_server self).

(** The text parts of a response, in [call_tool]. *)
Definition text_parts (parts : list ContentPart) : list str :=
  flat_map (fun p => match p with TextContent text => [text] | OtherContent _ => [] end) parts.

(** The [try] block of [call_tool], once the session has answered. *)
Definition tool_text (tool_name server : str) (r : reply CallToolResult) : str :=
  match r with
  | Reply response =>
      match content response with
      | [] => py "No response content"
      | parts => join [10%N] (text_parts parts)
      end
  | Failure text =>
      py "Error calling tool '" ++ tool_name ++ py "' on server '" ++ server ++
      py "': " ++ text
  end.

(** A reference always names an object of [connections] (see
    [refs_valid_run]); the branch for one that does not is never taken. *)
Definition call_tool (call : transport) (self : t) (tool_name : str) (parameters : json)
    : outcome str :=
  match _tool_to_server self !! tool_name with
  | None =>
      Returned (py "Error: Tool '" ++ tool_name ++ py "' not found on any connected server")
  | Some ref =>
      match deref self ref with
      | None => OutOfModel
      | Some conn =>
          match MCPServerConnection.session conn with
          | None =>
              Returned (py "Error: Server '" ++ MCPServerConnection.name conn ++
                        py "' is not connected")
          | Some session =>
              Returned (tool_text tool_name (MCPServerConnection.name conn)
                          (call session tool_name parameters))
          end
      end
  end.

Definition get_server_for_tool (self : t) (tool_name : str) : option str :=
  match _tool_to_server self !! tool_name with
  | None => None
  | Some ref => MCPServerConnection.name <$> deref self ref
  end.

(** A history of the client: what is called on it after construction. *)
Inductive op :=
| Connect (net : str -> handshake)
| Disconnect.

Definition step (self : t) (o : op) : t :=
  match o with
  | Connect net => fst (connect net self)
  | Disconnect => disconnect self
  end.

Definition run (servers : list (str * str)) (ops : list op) : t :=
  fold_left step ops (__init__ servers).

(** A source lists a tool when its handshake succeeds with that name. *)
Definition lists (net : str -> handshake) (n tool : str) : Prop :=
  match net n with
  | ToolsListed names => tool ∈ names
  | _ => False
  end.

#[global] Instance lists_dec net n tool : Decision (lists net n tool).
Proof. unfold lists. destruct (net n); apply _. Defined.

(** The last of the sources, in connection order, that lists the tool. *)
Definition last_lister (net : str -> handshake) (order : list str) (tool : str) : option str :=
  last (filter (fun n => lists net n tool) order).

(** Every reference of the registry names a connection object. *)
Definition refs_valid (self : t) : Prop :=
  forall tool ref, _tool_to_server self !! tool = Some ref -> ref ∈ (connections self).*1.

End MultiMCPClient.

(** The scenario of two sources sharing a tool name: [source1] offers
    [a] and [b], [source2] offers [b] and [c], and [source1] connects
    first. *)
Definition two_sources : list (str * str) :=
  [(py "source1", py "http://localhost:8002"); (py "source2", py "http://localhost:8003")].

Definition two_sources_net (n : str) : handshake :=
  if decide (n = py "source1") then ToolsListed [py "a"; py "b"]
  else if decide (n = py "source2") then ToolsListed [py "b"; py "c"]
  else TransportDown (py "unknown host").

(** A single reachable server that offers no tool. *)
Definition toolless_source : list (str * str) := [(py "notes", py "http://localhost:8004/")].

Definition toolless_net (n : str) : handshake := ToolsListed [].

End Router.

(** ** The chat-completion types of the [openai] package *)

Module OpenAI.
Import Json.

Record Function := { name : str; arguments : str }.

Record ChatCompletionMessageToolCall := {
  id : str;
  type : str;
  function : Function;
}.

Record ChatCompletionMessage := {
  role : str;
  content : option str;
  tool_calls : option (list ChatCompletionMessageToolCall);
}.

(** [if message.tool_calls:] *)
Definition has_tool_calls (m : ChatCompletionMessage) : bool :=
  match tool_calls m with
  | Some (_ :: _) => true
  | _ => false
  end.

(** An entry of a conversation: a plain dict, or a message object as the
    client returned it. *)
Inductive message :=
| Dict (d : json)
| Completion (m : ChatCompletionMessage).

(** [client.chat.completions.create(messages=..., tools=...)], read at
    [.choices[0].message]. *)
Definition chat := list message -> list json -> reply ChatCompletionMessage.

(** What [Agent.run] returns: a message object or a plain string. *)
Inductive answer :=
| Message (m : ChatCompletionMessage)
| Text (s : str).

(** A run of an agent, with its conversation and what it did on the way
    (the two counters are bookkeeping of the model, not of the code). *)
Record exec := {
  messages : list message;
  llm_calls : nat;
  dispatched : list (str * json);
}.

Definition start (conversation : list message) : exec :=
  {| messages := conversation; llm_calls := 0; dispatched := [] |}.

Definition append (m : message) (e : exec) : exec :=
  {| messages := messages e ++ [m]; llm_calls := llm_calls e; dispatched := dispatched e |}.

Definition asked (e : exec) : exec :=
  {| messages := messages e; llm_calls := S (llm_calls e); dispatched := dispatched e |}.

Definition called (tool : str) (args : json) (e : exec) : exec :=
  {| messages := messages e; llm_calls := llm_calls e;
     dispatched := dispatched e ++ [(tool, args)] |}.

End OpenAI.

(** ** [lesson_5/src/clients/ollama_client.py] and [llm_client.py] *)

Module Adapter.
Import Json OpenAI.

(** The body of Ollama's [/api/chat] answer.  A field is [None] when its
    key is absent.  Tool-call arguments come as a mapping or as text. *)
Inductive OllamaArguments :=
| Mapping (members : list (str * json))
| Literal (text : str).

Record OllamaFunction := {
  f_name : option str;
  f_arguments : option OllamaArguments;
}.

Record OllamaToolCall := {
  tc_id : option str;
  tc_function : option OllamaFunction;
}.

Record OllamaMessage := {
  m_content : option str;
  m_thinking : option str;
  m_tool_calls : option (list OllamaToolCall);
}.

Record OllamaResponse := {
  r_message : option OllamaMessage;
  r_done_reason : option str;
}.

(** The message and the finish reason of the [ChatCompletion] that is
    built; its [id], [model], [created] and [usage] fields are left out. *)
Record ChatCompletion := {
  c_message : ChatCompletionMessage;
  c_finish_reason : str;
}.

Definition empty_message : OllamaMessage :=
  {| m_content := None; m_thinking := None; m_tool_calls := None |}.

Definition empty_function : OllamaFunction := {| f_name := None; f_arguments := None |}.

(** [if isinstance(arguments, dict): arguments = json.dumps(arguments)] *)
Definition normalize_arguments (a : OllamaArguments) : str :=
  match a with
  | Mapping members => dumps true (JObj members)
  | Literal text => text
  end.

(** One round of the loop over [ollama_tool_calls]; [i] is the index of
    [tc]. *)
Definition convert_tool_call (i : nat) (tc : OllamaToolCall) : ChatCompletionMessageToolCall :=
  let func := default empty_function (tc_function tc) in
  let arguments := normalize_arguments (default (Mapping []) (f_arguments func)) in
  {| id := default (py "call_" ++ int_repr (Z.of_nat i)) (tc_id tc);
     type := py "function";
     function := {| name := default [] (f_name func); arguments := arguments |} |}.

(** The truth value of a string or [None]. *)
Definition truthy (s : option str) : bool :=
  match s with
  | Some (_ :: _) => true
  | _ => false
  end.

(** [content] after [if not content and thinking: content = thinking],
    as passed on: [content if content else None]. *)
Definition resolve_content (message : OllamaMessage) : option str :=
  let content := m_content message in
  let thinking := m_thinking message in
  let content := if negb (truthy content) && truthy thinking then thinking else content in
  if truthy content then content else None.

Module OllamaClient.

Definition _convert_tool_calls (ollama_tool_calls : option (list OllamaToolCall))
    : option (list ChatCompletionMessageToolCall) :=
  match ollama_tool_calls with
  | None | Some [] => None
  | Some tcs =>
      match imap convert_tool_call tcs with
      | [] => None
      | tool_calls => Some tool_calls
      end
  end.

Definition _to_openai_format (ollama_response : OllamaResponse) : ChatCompletion :=
  let message := default empty_message (r_message ollama_response) in
  {| c_message :=
       {| role := py "assistant";
          content := resolve_content message;
          tool_calls := _convert_tool_calls (m_tool_calls message) |};
     c_finish_reason := default (py "stop") (r_done_reason ollama_response) |}.

End OllamaClient.

Module LLMClient.

(** The loop of [_convert_ollama_to_openai]: the default id is made from
    [len(tool_calls)], the number of calls converted so far. *)
Fixpoint convert_loop (tcs : list OllamaToolCall) (tool_calls : list ChatCompletionMessageToolCall)
    : list ChatCompletionMessageToolCall :=
  match tcs with
  | [] => tool_calls
  | tc :: rest => convert_loop rest (tool_calls ++ [convert_tool_call (length tool_calls) tc])
  end.

Definition _convert_ollama_to_openai (ollama_response : OllamaResponse) : ChatCompletion :=
  let message := default empty_message (r_message ollama_response) in
  let tool_calls :=
    match m_tool_calls message with
    | None | Some [] => None
    | Some tcs => Some (convert_loop tcs [])
    end in
  {| c_message :=
       {| role := py "assistant";
          content := resolve_content message;
          tool_calls := match tool_calls with
                        | Some (_ :: _) => tool_calls
                        | _ => None
                        end |};
     c_finish_reason := default (py "stop") (r_done_reason ollama_response) |}.

End LLMClient.

(** An answer of a reasoning model: no content, a thought, and one tool
    call with a mapping as arguments. *)
Definition thoughtful_response : OllamaResponse :=
  {| r_message :=
       Some {| m_content := Some [];
               m_thinking := Some (py "The user wants the weather.");
               m_tool_calls :=
                 Some [{| tc_id := None;
                          tc_function :=
                            Some {| f_name := Some (py "get_weather");
                                    f_arguments :=
                                      Some (Mapping [(py "city", JStr (py "Bratislava"))]) |} |}] |};
     r_done_reason := None |}.

Definition plain_response : OllamaResponse :=
  {| r_message :=
       Some {| m_content := Some (py "It is sunny.");
               m_thinking := Some (py "Easy.");
               m_tool_calls := None |};
     r_done_reason := Some (py "stop") |}.

End Adapter.

(** ** [lesson_1/main.py]: one tool call, then one more question *)

Module Lesson1.
Import Json OpenAI.

(** The [tools] list sent with each request. *)
Definition tools : list json :=
  [JObj [(py "type", JStr (py "function"));
         (py "function",
          JObj [(py "name", JStr (py "get_weather"));
                (py "description",
                 JStr (py "Use this function to get the temperature for a city."));
                (py "parameters",
                 JObj [(py "type", JStr (py "object"));
                       (py "properties",
                        JObj [(py "city",
                               JObj [(py "type", JStr (py "string"));
                                     (py "description",
                                      JStr (py "The city in world eg. Bratislava"))])]);
                       (py "required", JArr [JStr (py "city")])])])]].

(** The weather service behind [get_weather]: the temperature of a city. *)
Definition weather := json -> reply Z.

(** Looking [function_name] up in [available_functions] and binding
    [function_args] as keyword arguments: the only entry is
    [get_weather], which takes exactly the keyword [city]. *)
Definition bind_call (function_name : str) (function_args : json) : outcome json :=
  if decide (function_name = py "get_weather") then
    match function_args with
    | JObj [(k, city)] => if decide (k = py "city") then Returned city else Raised TypeError
    | _ => Raised TypeError
    end
  else Raised (KeyError function_name).

(** [get_weather(city)] *)
Definition get_weather (service : weather) (city : json) : outcome json :=
  match service city with
  | Reply temperature =>
      Returned (JObj [(py "city", city); (py "Temperature", JInt temperature)])
  | Failure text => Raised (Remote text)
  end.

Definition assistant_message (function_name : str) (function_args : json) : message :=
  Dict (JObj [(py "role", JStr (py "assistant"));
              (py "tool_calls",
               JArr [JObj [(py "type", JStr (py "function"));
                           (py "function",
                            JObj [(py "name", JStr function_name);
                                  (py "arguments", JStr (dumps true function_args))])]])]).

Definition tool_message (function_name content : str) : message :=
  Dict (JObj [(py "role", JStr (py "tool")); (py "name", JStr function_name);
              (py "content", JStr content)]).

Definition sentinel : str := py "Something is wrong sorry no sorry".

(** [Agent.run(messages)] *)
Definition run (llm : chat) (service : weather) (conversation : list message)
    : exec * outcome answer :=
  let e := start conversation in
  match llm (messages e) tools with
  | Failure text => (asked e, Raised (Remote text))
  | Reply response =>
      let e := asked e in
      match tool_calls response with
      | Some (tool_call :: _) =>
          let function_name := name (function tool_call) in
          match loads (arguments (function tool_call)) with
          | DecodeError => (e, Raised JSONDecodeError)
          | HasFloat => (e, OutOfModel)
          | Value function_args =>
              match bind_call function_name function_args with
              | Raised x => (e, Raised x)
              | OutOfModel => (e, OutOfModel)
              | Returned city =>
                  let e := called function_name function_args e in
                  match get_weather service city with
                  | Raised x => (e, Raised x)
                  | OutOfModel => (e, OutOfModel)
                  | Returned function_response =>
                      let e := append (assistant_message function_name function_args) e in
                      let e :=
                        append (tool_message function_name (dumps true function_response)) e in
                      match llm (messages e) tools with
                      | Failure text => (asked e, Raised (Remote text))
                      | Reply second_response => (asked e, Returned (Message second_response))
                      end
                  end
              end
          end
      | _ => (e, Returned (Text sentinel))
      end
  end.



Definition scripted_weather : weather := fun _ => Reply 21%Z.

Definition question : list message :=
  [Dict (JObj [(py "role", JStr (py "system"));
               (py "content", JStr (py "You are a helpful AI assistant. "))]);
   Dict (JObj [(py "role", JStr (py "user"));
               (py "content", JStr (py "What is the current weather in Bratislava?"))])].

End Lesson1.

(** ** [lesson_2/main.py]: the loop with an iteration cap *)

Module Lesson2.
Import Json Mcp OpenAI.

Definition mcp_tool_response_to_text (resp : CallToolResult) : str :=
  match structuredContent resp with
  | Some sc => dumps false sc
  | None =>
      join [10%N]
        (map (fun p => match p with TextContent text => text | OtherContent shown => shown end)
             (Mcp.content resp))
  end.

Definition tool_message (function_name content : str) : message :=
  Dict (JObj [(py "role", JStr (py "tool")); (py "name", JStr function_name);
              (py "content", JStr content)]).

Definition sentinel : str := py "Something is wrong sorry no sorry".

Record Agent := { model : str; max_iterations : nat }.

Definition __init__ (model : str) : Agent := {| model := model; max_iterations := 10 |}.

(** [tool_call.function.arguments or "{}"], the text handed to
    [json.loads]. *)
Definition arguments_text (tool_call : ChatCompletionMessageToolCall) : str :=
  match arguments (function tool_call) with [] => py "{}" | a => a end.

(** [for tool_call in response_message.tool_calls: ...] *)
Fixpoint dispatch_all (call : transport) (session : ClientSession)
    (calls : list ChatCompletionMessageToolCall) (e : exec) : exec * outcome unit :=
  match calls with
  | [] => (e, Returned tt)
  | tool_call :: rest =>
      let function_name := name (function tool_call) in
      match loads (arguments_text tool_call) with
      | DecodeError => (e, Raised JSONDecodeError)
      | HasFloat => (e, OutOfModel)
      | Value function_args =>
          let e := called function_name function_args e in
          match call session function_name function_args with
          | Failure text => (e, Raised (Remote text))
          | Reply tool_response =>
              dispatch_all call session rest
                (append (tool_message function_name (mcp_tool_response_to_text tool_response)) e)
          end
      end
  end.

(** The [while iteration < self.max_iterations] loop, with [remaining]
    the rounds left: [max_iterations - iteration]. *)
Fixpoint loop (llm : chat) (call : transport) (session : ClientSession) (tools : list json)
    (remaining : nat) (e : exec) : exec * outcome answer :=
  match remaining with
  | O => (e, Returned (Text sentinel))
  | S remaining =>
      match llm (messages e) tools with
      | Failure text => (asked e, Raised (Remote text))
      | Reply response_message =>
          let e := append (Completion response_message) (asked e) in
          if has_tool_calls response_message then
            match dispatch_all call session (default [] (tool_calls response_message)) e with
            | (e, Returned _) => loop llm call session tools remaining e
            | (e, Raised x) => (e, Raised x)
            | (e, OutOfModel) => (e, OutOfModel)
            end
          else (e, Returned (Message response_message))
      end
  end.

(** [Agent.run(messages)], once the session is open and [tools] is the
    converted tool list of the server. *)
Definition run (self : Agent) (llm : chat) (call : transport) (session : ClientSession)
    (tools : list json) (conversation : list message) : exec * outcome answer :=
  loop llm call session tools (max_iterations self) (start conversation).

(** A model that always asks for a tool, with arguments that are not
    JSON (an opening brace alone), and one whose arguments are. *)
Definition tool_call_with (args : str) : ChatCompletionMessage :=
  {| role := py "assistant"; content := None;
     tool_calls := Some [{| id := py "call_0"; type := py "function";
                            function := {| name := py "get_weather"; arguments := args |} |}] |}.

Definition garbling_llm : chat := fun _ _ => Reply (tool_call_with (py "{")).


Definition local_session : ClientSession := {| endpoint := py "stdio" |}.

(** A server that answers with a text part and a structured payload. *)
Definition structured_reply : CallToolResult :=
  {| Mcp.content := [TextContent (py "sunny")];
     structuredContent := Some (JObj [(py "temperature", JInt 21)]) |}.

Definition structured_server : transport := fun _ _ _ => Reply structured_reply.

End Lesson2.

(** ** [lesson_6/02_langgraph/graph.py]: the cache-check node *)

Module Graph.

(** The last message of the sub-agent: an object with a [content]
    attribute ([content] is [str(last_message.content)]), or anything
    else ([shown] is [str(last_message)]). *)
Inductive agent_message :=
| WithContent (content : str)
| Other (shown : str).

Definition no_cache_indicators : list str :=
  [py "none of the cities"; py "no cached"; py "not found"; py "cache is empty";
   py "no data"; py "don't have"; py "do not have"; py "haven't"; py "have not";
   py "missing"; py "CACHED: none"; py "cached: none"].

Definition found_indicators : list str :=
  [py "found"; py "cached data"; py "temperature"; [176%N; 99%N]; py "celsius"; py "valid"].

Record CheckCacheOutput := {
  out_messages : list agent_message;
  cached_cities : list str;
  missing_cities : list str;
  needs_fetch : bool;
}.

(** [CheckCacheNode], from the answer of the sub-agent on.  [lower] is
    [str.lower]. *)
Definition CheckCacheNode (lower : str -> str) (cities : list str)
    (last_message : agent_message) : CheckCacheOutput :=
  let response_content :=
    match last_message with WithContent c => c | Other shown => shown end in
  let response_lower := lower response_content in
  let has_no_cache :=
    existsb (fun indicator => contains indicator response_lower) no_cache_indicators in
  let has_cache :=
    existsb (fun indicator => contains indicator response_lower) found_indicators
    && negb has_no_cache in
  let cached := if has_no_cache || negb has_cache then [] else cities in
  let missing := if has_no_cache || negb has_cache then cities else [] in
  {| out_messages := [last_message];
     cached_cities := cached;
     missing_cities := missing;
     needs_fetch := Nat.ltb 0 (length missing) |}.

Definition needs_fetch_router (needs_fetch : bool) : str :=
  if needs_fetch then py "fetch_weather" else py "compile_results".

(** [str.lower] on the letters A to Z, for examples. *)
Definition ascii_lower (s : str) : str :=
  map (fun c => if ((65 <=? c) && (c <=? 90))%N then (c + 32)%N else c) s.

End Graph.

(** ** Truth values *)

(** [bool(v)] of a plain Python value: [None], [False], zero and the
    empty string, list and dict are false. *)
Definition truth (v : Json.json) : bool :=
  match v with
  | Json.JNull => false
  | Json.JBool b => b
  | Json.JInt n => negb (n =? 0)%Z
  | Json.JStr [] => false
  | Json.JArr [] => false
  | Json.JObj [] => false
  | _ => true
  end.

(** [v.get(k)] when [v] is a dict. *)
Definition field (k : str) (v : Json.json) : option Json.json :=
  match v with
  | Json.JObj members => Json.dict_get k members
  | _ => None
  end.

(** The printable characters of ASCII, from the space to the tilde. *)
Definition printable (c : N) : bool := ((32 <=? c) && (c <=? 126))%N.

(** ** [lesson_2/main.py]: the tool list handed to the model *)

Module Lesson2Tools.
Import Json.

Definition _EMPTY_SCHEMA : json :=
  JObj [(py "type", JStr (py "object")); (py "properties", JObj [])].

(** A tool's input schema: a plain value ([None], a [str], a [dict]) or
    an object with a [model_dump()] or [dict()] method, which gives
    [dumped]. *)
Inductive schema :=
| Plain (v : json)
| Model (dumped : json).

Definition _to_json_schema (s : schema) : outcome json :=
  match s with
  | Plain JNull => Returned _EMPTY_SCHEMA
  | Model dumped => Returned dumped
  | Plain (JStr text) =>
      match loads text with
      | Value v => Returned v
      | DecodeError => Returned _EMPTY_SCHEMA
      | HasFloat => OutOfModel
      end
  | Plain v => Returned v
  end.

(** A tool description: a dict, or an object whose attributes are
    [None] when they are absent. *)
Inductive tool :=
| ToolDict (d : list (str * json))
| ToolObject (name description : option str) (input_schema inputSchema : option schema).

Definition schema_truth (s : option schema) : bool :=
  match s with
  | None => false
  | Some (Plain v) => truth v
  | Some (Model _) => true
  end.

(** The name, before it is tested: [tool.get("name")] or
    [getattr(tool, "name", None)]. *)
Definition raw_name (t : tool) : json :=
  match t with
  | ToolDict d => default JNull (dict_get (py "name") d)
  | ToolObject name _ _ _ => from_option JStr JNull name
  end.

Definition raw_schema (t : tool) : schema :=
  match t with
  | ToolDict d => Plain (default JNull (dict_get (py "input_schema") d))
  | ToolObject _ _ input_schema inputSchema =>
      default (Plain JNull) (if schema_truth input_schema then input_schema else inputSchema)
  end.

Definition _extract_tool_info (t : tool) : outcome (json * json * json) :=
  let desc :=
    match t with
    | ToolDict d => default (JStr []) (dict_get (py "description") d)
    | ToolObject _ description _ _ => JStr (default [] description)
    end in
  match _to_json_schema (raw_schema t) with
  | Returned params => Returned (raw_name t, desc, params)
  | Raised x => Raised x
  | OutOfModel => OutOfModel
  end.

Definition function_tool (name desc params : json) : json :=
  JObj [(py "type", JStr (py "function"));
        (py "function",
         JObj [(py "name", name); (py "description", desc);
               (py "parameters", if truth params then params else _EMPTY_SCHEMA)])].

(** [mcp_tools_to_openai(tools_src)], for a list of tools. *)
Fixpoint mcp_tools_to_openai (tools_src : list tool) : outcome (list json) :=
  match tools_src with
  | [] => Returned []
  | t :: rest =>
      match _extract_tool_info t with
      | Returned (name, desc, params) =>
          match mcp_tools_to_openai rest with
          | Returned result =>
              Returned (if truth name then function_tool name desc params :: result else result)
          | other => other
          end
      | Raised x => Raised x
      | OutOfModel => OutOfModel
      end
  end.

(** The schema of a tool is a text that holds a floating-point number. *)
Definition float_schema (t : tool) : bool :=
  match raw_schema t with
  | Plain (JStr text) => match loads text with HasFloat => true | _ => false end
  | _ => false
  end.

(** What the model reads in a converted tool. *)
Definition tool_name (d : json) : option json := field (py "function") d ≫= field (py "name").

Definition tool_parameters (d : json) : option json :=
  field (py "function") d ≫= field (py "parameters").

(** Three tools of a server: a dict with a schema text that is not JSON,
    an object without a name, and an object with an empty schema. *)
Definition sample_tools : list tool :=
  [ToolDict [(py "name", JStr (py "get_forecast")); (py "input_schema", JStr (py "{"))];
   ToolObject None (Some (py "nameless")) None None;
   ToolObject (Some (py "get_current_temperature")) None (Some (Plain (JObj []))) None].

End Lesson2Tools.

(** ** [multi_mcp_client.py]: listing the tools of all servers *)

Module Listing.
Import Json Mcp Router.
Import MultiMCPClient.

(** Every connection object carries the name it is stored under. *)
Definition named (self : t) : Prop :=
  Forall (fun nc => MCPServerConnection.name (snd nc) = fst nc) (connections self).











End Listing.

(** ** The constructors of [OllamaClient] and [LLMClient] *)

Module Setup.

(** [s.replace(old, "")] for a non-empty [old]: the occurrences of [old]
    are removed from left to right. *)
Fixpoint remove_from (fuel : nat) (old s : str) : str :=
  match fuel with
  | O => s
  | S fuel =>
      match s with
      | [] => []
      | c :: r =>
          if startswith old s then remove_from fuel old (drop (length old) s)
          else c :: remove_from fuel old r
      end
  end.

Definition remove (old s : str) : str := remove_from (length s) old s.

(** [model.replace("ollama/", "") if model.startswith("ollama/") else model] *)
Definition strip_provider (model : str) : str :=
  if startswith (py "ollama/") model then remove (py "ollama/") model else model.

Module OllamaClient.

Record t := mk { model : str; base_url : str }.

(** [env_url] is [os.getenv("OLLAMA_BASE_URL", "http://localhost:11434")]. *)
Definition __init__ (env_url : str) (model : str) (base_url : option str) : t :=
  mk (strip_provider model)
     (rstrip 47%N (match base_url with Some (c :: u) => c :: u | _ => env_url end)).

End OllamaClient.

Module LLMClient.

Record t := mk { llm_model : str; use_direct_ollama : bool; ollama_model : str }.

Definition __init__ (llm_model : str) (use_direct_ollama : bool) : t :=
  mk llm_model (use_direct_ollama && startswith (py "ollama/") llm_model)
     (strip_provider llm_model).

End LLMClient.

End Setup.

(** ** [lesson_6/02_langgraph/graph.py]: the other nodes *)

Module Nodes.
Import Json Graph.

(** An entry of [state["messages"]]: a dict or a message object. *)
Inductive state_message :=
| DictMessage (d : list (str * json))
| ObjectMessage (m : agent_message).

Record ExtractedInfo := { cities : list str; weather_date : str }.

(** [chain.ainvoke({"message": user_message})]: the structured answer of
    the model, or [None]. *)
Definition extractor := json -> reply (option ExtractedInfo).

(** [isinstance(msg, dict) and msg.get("role") == "user"] *)
Definition is_user (msg : state_message) : bool :=
  match msg with
  | DictMessage d =>
      match dict_get (py "role") d with
      | Some (JStr role) => bool_decide (role = py "user")
      | _ => false
      end
  | ObjectMessage _ => false
  end.

(** The [for msg in messages] loop: [user_message] when it ends, [None]
    included. *)
Fixpoint find_user_message (messages : list state_message) : json :=
  match messages with
  | [] => JNull
  | msg :: rest =>
      if is_user msg then
        match msg with
        | DictMessage d => default (JStr []) (dict_get (py "content") d)
        | ObjectMessage _ => JNull
        end
      else find_user_message rest
  end.

(** [today] is what [get_today_date()] returns during the call. *)
Definition ExtractCitiesNode (today : str) (chain : extractor) (messages : list state_message)
    : outcome ExtractedInfo :=
  let nothing := {| cities := []; weather_date := today |} in
  match messages with
  | [] => Returned nothing
  | _ =>
      let user_message := find_user_message messages in
      if negb (truth user_message) then Returned nothing
      else
        match chain user_message with
        | Failure text => Raised (Remote text)
        | Reply None => Returned nothing
        | Reply (Some result) => Returned result
        end
  end.

(** The sub-agent of a node: from the content of the one user message it
    is invoked with to the last message of its answer. *)
Definition sub_agent := str -> reply agent_message.

Definition cities_info (missing : list str) : str :=
  join [10%N] (map (fun city => py "- " ++ city) missing).

Definition fetch_content (missing : list str) (weather_date : str) : str :=
  py "Get current weather for these cities using your weather tools:" ++ [10%N] ++
  cities_info missing ++ [10%N; 10%N] ++
  py "The requested weather date is: " ++ weather_date ++ [10%N; 10%N] ++
  py "You MUST call the weather tool for EACH city. Use the city's coordinates (latitude, longitude)."
  ++ [10%N] ++
  py "Return the weather data you receive from the tools. The date for this weather data is: "
  ++ weather_date.

(** [FetchWeatherNode]: the [messages] it returns. *)
Definition FetchWeatherNode (weather_agent : sub_agent) (missing : list str) (weather_date : str)
    : outcome (list state_message) :=
  match missing with
  | [] =>
      Returned [DictMessage [(py "role", JStr (py "assistant"));
                             (py "content", JStr (py "No cities to fetch."))]]
  | _ =>
      match weather_agent (fetch_content missing weather_date) with
      | Failure text => Raised (Remote text)
      | Reply last_message => Returned [ObjectMessage last_message]
      end
  end.

(** A weather agent that answers with the request it was given. *)
Definition echo_agent : sub_agent := fun content => Reply (WithContent content).

(** An answer of the database agent in the format the node asks for,
    when every city is cached. *)
Definition all_cached_answer : agent_message :=
  WithContent (py "CACHED: Bratislava, Vienna" ++ [10%N] ++ py "MISSING: none").

End Nodes.

(** * Theorems *)

(** ** The models at work *)

Section Examples.
Import Json Graph.
Local Open Scope N_scope.

Example dumps_escapes_non_ascii :
  dumps true (JObj [(py "city", JStr (py "Ko" ++ [353] ++ py "ice")); (py "t", JInt (-3))])
  = [123; 34] ++ py "city" ++ [34] ++ py ": " ++ [34] ++ py "Ko\u0161ice" ++ [34] ++
    py ", " ++ [34] ++ py "t" ++ [34] ++ py ": -3}".
Proof. reflexivity. Qed.

Example dumps_keeps_non_ascii :
  dumps false (JStr (py "Ko" ++ [353] ++ py "ice")) = [34] ++ py "Ko" ++ [353] ++ py "ice" ++ [34].
Proof. reflexivity. Qed.

Example loads_skips_white_space :
  loads (py " [1 , -20,[ ], null ,true] ")
  = Value (JArr [JInt 1; JInt (-20); JArr []; JNull; JBool true]).
Proof. by vm_compute. Qed.

Example loads_joins_surrogates :
  loads ([34] ++ py "\ud83d\ude00" ++ [34]) = Value (JStr [128512]).
Proof. by vm_compute. Qed.

Example loads_last_key_wins :
  loads ([123; 34; 97; 34; 58; 49; 44; 34; 97; 34; 58; 50; 125]) = Value (JObj [([97], JInt 2)]).
Proof. by vm_compute. Qed.

Example loads_rejects_trailing_comma : loads (py "[1,]") = DecodeError.
Proof. by vm_compute. Qed.

Example loads_rejects_leading_zero : loads (py "012") = DecodeError.
Proof. by vm_compute. Qed.

Example loads_meets_float : loads (py "[48.15, 17.11]") = HasFloat.
Proof. by vm_compute. Qed.

(** A report that names one city as cached and one as missing is read
    as "nothing cached": the word "missing" is enough. *)
Example check_cache_mixed_report :
  let out := CheckCacheNode ascii_lower [py "Bratislava"; py "Trnava"]
               (WithContent (py "CACHED: Bratislava" ++ [10] ++ py "MISSING: Trnava")) in
  cached_cities out = [] /\ missing_cities out = [py "Bratislava"; py "Trnava"] /\
  needs_fetch out = true.
Proof. by vm_compute. Qed.

Example check_cache_found_report :
  let out := CheckCacheNode ascii_lower [py "Bratislava"; py "Trnava"]
               (WithContent (py "Temperature for both cities is valid.")) in
  cached_cities out = [py "Bratislava"; py "Trnava"] /\ missing_cities out = [] /\
  needs_fetch out = false.
Proof. by vm_compute. Qed.

End Examples.

(** ** The router *)

Section RouterFacts.
Import Json Mcp Router.
Import MultiMCPClient.

Lemma dict_get_is_Some {V} (k : str) (d : list (str * V)) :
  is_Some (dict_get k d) <-> k ∈ d.*1.
Proof.
  induction d as [|[k' v] d IH]; simpl.
  - split; [intros [? ?]; discriminate | intros H; inversion H].
  - rewrite elem_of_cons. case_decide; subst.
    + split; [intros _; by left | intros _; eauto].
    + rewrite IH. split; [by right | by intros [?|?]].
Qed.

Lemma dict_get_map {V W} (f : str -> V -> W) (k : str) (d : list (str * V)) :
  dict_get k (map (fun nc => (fst nc, f (fst nc) (snd nc))) d) = f k <$> dict_get k d.
Proof.
  induction d as [|[k' v] d IH]; simpl; [done|].
  case_decide; subst; [done | apply IH].
Qed.

Lemma register_lookup (ref : str) (names : list str) (reg : gmap str str) (t : str) :
  register ref names reg !! t = if decide (t ∈ names) then Some ref else reg !! t.
Proof.
  unfold register. revert reg.
  induction names as [|a names IH]; intros reg; cbn [fold_left].
  - rewrite decide_False; [done | apply not_elem_of_nil].
  - rewrite IH. destruct (decide (t ∈ names)).
    + rewrite decide_True; [done | by right].
    + destruct (decide (a = t)) as [->|Hne].
      * rewrite lookup_insert_eq. rewrite decide_True; [done | by left].
      * rewrite lookup_insert_ne; [|done].
        rewrite decide_False; [done|]. rewrite elem_of_cons. by intros [?|?].
Qed.

Lemma connect_each_conns net conns reg :
  fst (connect_each net conns reg) =
  map (fun nc => (fst nc, fst (MCPServerConnection.connect (net (fst nc)) (snd nc)))) conns.
Proof.
  revert reg. induction conns as [|[name conn] conns IH]; intros reg; simpl; [done|].
  destruct (MCPServerConnection.connect (net name) conn) as [conn' r] eqn:E.
  simpl. specialize (IH (match r with Returned _ => register name (MCPServerConnection.tools conn') reg | _ => reg end)).
  destruct (connect_each net conns _) as [rest' reg'']. simpl in *. by rewrite IH.
Qed.

Lemma connect_each_registry net conns reg t :
  snd (connect_each net conns reg) !! t =
  match last_lister net conns.*1 t with
  | Some n => Some n
  | None => reg !! t
  end.
Proof.
  unfold last_lister.
  revert reg. induction conns as [|[name conn] conns IH]; intros reg; simpl; [done|].
  rewrite filter_cons. unfold MCPServerConnection.connect.
  destruct (net name) as [text|text|names] eqn:Hnet; simpl.
  1,2: specialize (IH reg); destruct (connect_each net conns reg) as [rest' reg''];
       simpl in *; rewrite IH;
       (rewrite decide_False; [done | unfold lists; rewrite Hnet; tauto]).
  specialize (IH (register name names reg)).
  destruct (connect_each net conns _) as [rest' reg'']; simpl in *; rewrite IH.
  rewrite register_lookup. destruct (decide (t ∈ names)) as [Hin|Hnin].
  - rewrite decide_True; [|unfold lists; by rewrite Hnet].
    rewrite last_cons. by destruct (last _).
  - rewrite decide_False; [done | unfold lists; by rewrite Hnet].

Qed.

Lemma filter_none {A} (P : A -> Prop) `{!forall x, Decision (P x)} (l : list A) :
  Forall (fun m => ~ P m) l -> filter P l = [].
Proof.
  induction 1 as [|x l Hx _ IH]; [done|]. by rewrite filter_cons_False.
Qed.

Lemma last_filter_split {A} (P : A -> Prop) `{!forall x, Decision (P x)} (l : list A) (n : A) :
  last (filter P l) = Some n <->
  exists before after, l = before ++ n :: after /\ P n /\ Forall (fun m => ~ P m) after.
Proof.
  induction l as [|x l IH].
  - split; [discriminate | intros (b & a & Hl & _)]. by destruct b.
  - rewrite filter_cons. split.
    + intros Hlast. destruct (last (filter P l)) as [n'|] eqn:El.
      * assert (n' = n) as ->.
        { destruct (decide (P x)); [rewrite last_cons, El in Hlast|]; congruence. }
        destruct (proj1 IH eq_refl) as (b & a & -> & Hn & Ha).
        by exists (x :: b), a.
      * apply last_None in El.
        destruct (decide (P x)) as [Hx|Hx]; [|by rewrite El in Hlast].
        rewrite El in Hlast. injection Hlast as ->.
        exists [], l. repeat split; [done|].
        apply Forall_forall. intros m Hm Pm.
        assert (m ∈ filter P l) as Hf by (by apply list_elem_of_filter).
        rewrite El in Hf. by apply not_elem_of_nil in Hf.
    + intros (b & a & Heq & Hn & Ha). destruct b as [|y b]; simplify_eq/=.
      * rewrite decide_True by done.
        by rewrite (filter_none P a Ha).
      * assert (last (filter P (b ++ n :: a)) = Some n) as El by (apply IH; eauto).
        destruct (decide (P y)); [rewrite last_cons, El|]; done.
Qed.

Lemma connect_each_keys net conns reg :
  (fst (connect_each net conns reg)).*1 = conns.*1.
Proof.
  rewrite connect_each_conns. induction conns as [|[name conn] conns IH]; [done|].
  simpl. by f_equal.
Qed.

Lemma refs_valid_init servers : refs_valid (__init__ servers).
Proof. intros tool ref. simpl. by rewrite lookup_empty. Qed.

Lemma refs_valid_connect net self : refs_valid self -> refs_valid (fst (connect net self)).
Proof.
  intros Hv tool ref. unfold connect.
  pose proof (connect_each_registry net (connections self) (_tool_to_server self) tool) as Hr.
  pose proof (connect_each_keys net (connections self) (_tool_to_server self)) as Hk.
  destruct (connect_each net _ _) as [conns reg]. simpl in *. rewrite Hr, Hk.
  unfold last_lister. destruct (last _) as [n|] eqn:El; [|apply Hv].
  intros [= ->]. apply last_Some_elem_of in El. by apply list_elem_of_filter in El as [_ ?].
Qed.

Lemma disconnect_keys self : (connections (disconnect self)).*1 = (connections self).*1.
Proof. simpl. induction (connections self) as [|[n c] l IH]; [done|]. simpl. by f_equal. Qed.

Lemma refs_valid_disconnect self : refs_valid self -> refs_valid (disconnect self).
Proof. intros Hv tool ref. rewrite disconnect_keys. apply Hv. Qed.

Lemma refs_valid_run servers ops : refs_valid (run servers ops).
Proof.
  unfold run. generalize (refs_valid_init servers).
  generalize (__init__ servers). induction ops as [|o ops IH]; intros self Hv; [done|].
  simpl. apply IH. destruct o; [by apply refs_valid_connect | by apply refs_valid_disconnect].
Qed.

Lemma init_names servers :
  Forall (fun nc => MCPServerConnection.name (snd nc) = fst nc /\
                    MCPServerConnection._connected (snd nc) = false)
         (connections (__init__ servers)).
Proof.
  simpl. generalize (@nil (str * MCPServerConnection.t)) (Forall_nil_2
    (fun nc : str * MCPServerConnection.t =>
       MCPServerConnection.name (snd nc) = fst nc /\
       MCPServerConnection._connected (snd nc) = false)).
  induction servers as [|[n u] servers IH]; intros d Hd; [done|].
  simpl. apply IH. clear IH.
  induction Hd as [|[k c] d Hkc Hd IHd]; simpl.
  - by repeat constructor.
  - case_decide; constructor; try done.
Qed.

Lemma dict_get_Forall {V} (P : str * V -> Prop) (k : str) (v : V) (d : list (str * V)) :
  Forall P d -> dict_get k d = Some v -> P (k, v).
Proof.
  induction 1 as [|[k' v'] d Hx _ IH]; simpl; [done|].
  case_decide; subst; [by intros [= ->] | done].
Qed.

(** The state of the owner of a registry entry after [connect] on a new
    client. *)
Lemma connect_owner servers net tool n :
  _tool_to_server (fst (connect net (__init__ servers))) !! tool = Some n ->
  exists conn names,
    deref (fst (connect net (__init__ servers))) n = Some conn /\
    net n = ToolsListed names /\
    MCPServerConnection.name conn = n /\
    MCPServerConnection._connected conn = true /\
    MCPServerConnection.session conn =
      Some {| endpoint := MCPServerConnection.server_url conn ++ py "/mcp" |}.
Proof.
  unfold connect, deref.
  pose proof (connect_each_registry net (connections (__init__ servers)) ∅ tool) as Hr.
  pose proof (connect_each_conns net (connections (__init__ servers)) ∅) as Hc.
  destruct (connect_each net _ _) as [conns reg]. simpl fst in *. simpl snd in *.
  cbn [_tool_to_server connections]. rewrite Hr, Hc. clear Hr Hc.
  rewrite lookup_empty. unfold last_lister.
  destruct (last _) as [n'|] eqn:El; [|done]. intros [= ->].
  apply last_Some_elem_of, list_elem_of_filter in El as [Hl Hin].
  apply dict_get_is_Some in Hin as [c0 Hc0].
  rewrite (dict_get_map (fun k v => fst (MCPServerConnection.connect (net k) v))), Hc0.
  unfold lists in Hl. destruct (net n) as [| |names] eqn:Hnet; try done.
  pose proof (dict_get_Forall _ _ _ _ (init_names servers) Hc0) as [Hname _].
  eexists _, names. repeat split; simpl; done.
Qed.

(** C1 (as amended): on a new client, [connect] leaves each tool name
    owned by the source that registered it last.  A name is mapped to
    [n] exactly when [n] lists it and no source connected after [n]
    does; dispatching the name calls the session of that source, on its
    endpoint, and nothing else; for sources offering [a], [b] and [b],
    [c] the owner map is [a: source1, b: source2, c: source2]. *)
Theorem connect_last_registered_wins (servers : list (str * str)) (net : str -> handshake)
    (tool : str) :
  let self := fst (connect net (__init__ servers)) in
  (forall n, _tool_to_server self !! tool = Some n <->
     exists before after,
       (connections self).*1 = before ++ n :: after /\
       lists net n tool /\ Forall (fun m => ~ lists net m tool) after) /\
  (forall n, _tool_to_server self !! tool = Some n ->
     exists conn, deref self n = Some conn /\ MCPServerConnection.name conn = n /\
       forall call parameters,
         call_tool call self tool parameters =
         Returned (tool_text tool n
                     (call {| endpoint := MCPServerConnection.server_url conn ++ py "/mcp" |}
                           tool parameters))) /\
  _tool_to_server (fst (connect two_sources_net (__init__ two_sources))) =
    <[py "a" := py "source1"]> (<[py "b" := py "source2"]> {[py "c" := py "source2"]}).
Proof.
  intros self. split; [|split].
  - intros n. subst self. unfold connect.
    pose proof (connect_each_registry net (connections (__init__ servers)) ∅ tool) as Hr.
    pose proof (connect_each_keys net (connections (__init__ servers)) ∅) as Hk.
    destruct (connect_each net _ _) as [conns reg]. simpl fst in *. simpl snd in *.
    cbn [_tool_to_server connections]. rewrite Hr, Hk, lookup_empty.
    rewrite <- (last_filter_split (fun m => lists net m tool)).
    unfold last_lister. by destruct (last _).
  - subst self. intros n Hn. destruct (connect_owner _ _ _ _ Hn) as (conn & names & Hd & _ & Hname & _ & Hs).
    exists conn. repeat split; [done..|]. intros call parameters.
    unfold call_tool. by rewrite Hn, Hd, Hs, Hname.
  - by vm_compute.
Qed.

(** C1, refuted as stated: with [source1] connecting first, the shared
    name [b] is owned by [source2], and the owner map is not
    [a: source1, b: source1, c: source2]. *)
Lemma first_registered_does_not_win :
  _tool_to_server (fst (connect two_sources_net (__init__ two_sources))) !! py "b"
    = Some (py "source2") /\
  _tool_to_server (fst (connect two_sources_net (__init__ two_sources))) <>
    <[py "a" := py "source1"]> (<[py "b" := py "source1"]> {[py "c" := py "source2"]}).
Proof.
  split; [by vm_compute|].
  intros H. apply (f_equal (fun m => m !! py "b")) in H. vm_compute in H. discriminate.
Qed.

(** The instance of C1 at the two-source scenario and the tool [b]. *)
Lemma connect_last_registered_wins_witness :
  exists conn, deref (fst (connect two_sources_net (__init__ two_sources))) (py "source2")
                 = Some conn /\
    MCPServerConnection.name conn = py "source2" /\
    forall call parameters,
      call_tool call (fst (connect two_sources_net (__init__ two_sources))) (py "b") parameters =
      Returned (tool_text (py "b") (py "source2")
                  (call {| endpoint := MCPServerConnection.server_url conn ++ py "/mcp" |}
                        (py "b") parameters)).
Proof.
  apply (proj1 (proj2 (connect_last_registered_wins two_sources two_sources_net (py "b")))).
  by vm_compute.
Defined.

(** C3: [call_tool] answers a name without a registry entry with an
    error string naming the tool, and a name whose owning connection has
    lost its session with an error string naming the server; in every
    state the client reaches, it returns a string and raises nothing. *)
Theorem call_tool_returns_error_strings (call : transport) (tool_name : str)
    (parameters : json) :
  (forall self, _tool_to_server self !! tool_name = None ->
     call_tool call self tool_name parameters =
     Returned (py "Error: Tool '" ++ tool_name ++ py "' not found on any connected server")) /\
  (forall self ref conn,
     _tool_to_server self !! tool_name = Some ref ->
     deref self ref = Some conn ->
     MCPServerConnection.session conn = None ->
     call_tool call self tool_name parameters =
     Returned (py "Error: Server '" ++ MCPServerConnection.name conn ++
               py "' is not connected")) /\
  (forall servers ops, exists text,
     call_tool call (run servers ops) tool_name parameters = Returned text).
Proof.
  split; [|split].
  - intros self Hnone. unfold call_tool. by rewrite Hnone.
  - intros self ref conn Hreg Hd Hs. unfold call_tool. by rewrite Hreg, Hd, Hs.
  - intros servers ops. unfold call_tool.
    destruct (_tool_to_server (run servers ops) !! tool_name) as [ref|] eqn:Hreg; [|eauto].
    apply refs_valid_run, dict_get_is_Some in Hreg as [conn Hd].
    unfold deref. rewrite Hd. destruct (MCPServerConnection.session conn); eauto.
Qed.

(** The instance of C3 at a client that connected two sources and then
    disconnected: [b] is registered with a closed owner, [d] is not
    registered. *)
Lemma call_tool_returns_error_strings_witness :
  call_tool silent (run two_sources [Connect two_sources_net; Disconnect]) (py "d") (JObj []) =
    Returned (py "Error: Tool 'd' not found on any connected server") /\
  call_tool silent (run two_sources [Connect two_sources_net; Disconnect]) (py "b") (JObj []) =
    Returned (py "Error: Server 'source2' is not connected").
Proof.
  split.
  - apply (proj1 (call_tool_returns_error_strings silent (py "d") (JObj []))).
    by vm_compute.
  - apply (proj1 (proj2 (call_tool_returns_error_strings silent (py "b") (JObj [])))
             (run two_sources [Connect two_sources_net; Disconnect]) (py "source2")
             (MCPServerConnection.mk (py "source2") (py "http://localhost:8003") None
                [py "b"; py "c"] false)); by vm_compute.
Defined.

Lemma deref_disconnect self n :
  deref (disconnect self) n =
  (fun c => if MCPServerConnection._connected c
            then MCPServerConnection.disconnect c else c) <$> deref self n.
Proof.
  unfold deref, disconnect. cbn [connections].
  apply (dict_get_map (fun _ c => if MCPServerConnection._connected c
                                  then MCPServerConnection.disconnect c else c)).
Qed.

Lemma registry_disconnect self : _tool_to_server (disconnect self) = _tool_to_server self.
Proof. done. Qed.

(** C4 (as amended): registry entries are created when their owner
    connects and are never removed.  After [connect] on a new client the
    owner of every entry is connected; [disconnect] leaves the registry
    as it is and every connection disconnected, and dispatching a
    registered name then returns the error string naming its server; no
    operation removes an entry. *)
Theorem disconnect_keeps_registry_entries (servers : list (str * str))
    (net : str -> handshake) :
  let connected := fst (connect net (__init__ servers)) in
  let closed := disconnect connected in
  (forall tool n, _tool_to_server connected !! tool = Some n ->
     exists conn, deref connected n = Some conn /\
                  MCPServerConnection._connected conn = true) /\
  _tool_to_server closed = _tool_to_server connected /\
  Forall (fun nc => MCPServerConnection._connected (snd nc) = false) (connections closed) /\
  (forall call tool n parameters, _tool_to_server closed !! tool = Some n ->
     call_tool call closed tool parameters =
     Returned (py "Error: Server '" ++ n ++ py "' is not connected")) /\
  (forall self o tool, is_Some (_tool_to_server self !! tool) ->
     is_Some (_tool_to_server (step self o) !! tool)).
Proof.
  intros connected closed. subst closed connected. repeat split.
  - intros tool n Hn.
    destruct (connect_owner _ _ _ _ Hn) as (conn & _ & Hd & _ & _ & Hc & _). eauto.
  - simpl. induction (connections _) as [|[k c] l IH]; constructor; [|done].
    simpl. unfold MCPServerConnection.disconnect.
    destruct (MCPServerConnection._connected c) eqn:Ec; simpl; done.
  - intros call tool n parameters Hn. rewrite registry_disconnect in Hn.
    destruct (connect_owner _ _ _ _ Hn) as (conn & _ & Hd & _ & Hname & Hc & _).
    unfold call_tool. rewrite registry_disconnect, Hn, deref_disconnect, Hd.
    simpl. rewrite Hc. unfold MCPServerConnection.disconnect. rewrite Hc. simpl.
    by rewrite Hname.
  - intros self [net'|] tool Hsome; [|done]. simpl. unfold connect.
    pose proof (connect_each_registry net' (connections self) (_tool_to_server self) tool) as Hr.
    destruct (connect_each net' _ _) as [conns reg]. simpl in *. rewrite Hr.
    by destruct (last_lister _ _ _).
Qed.

(** C4, refuted as stated: after a connect and a disconnect, [a] still
    has its registry entry while its owner [source1] is disconnected. *)
Lemma registry_entry_outlives_connection :
  _tool_to_server (run two_sources [Connect two_sources_net; Disconnect]) !! py "a"
    = Some (py "source1") /\
  MCPServerConnection._connected <$>
    deref (run two_sources [Connect two_sources_net; Disconnect]) (py "source1") = Some false.
Proof. split; by vm_compute. Qed.

(** The instance of C4 at the two-source scenario and the tool [b]. *)
Lemma disconnect_keeps_registry_entries_witness :
  call_tool silent (disconnect (fst (connect two_sources_net (__init__ two_sources))))
    (py "b") (JObj []) =
  Returned (py "Error: Server 'source2' is not connected").
Proof.
  apply (proj1 (proj2 (proj2 (proj2
           (disconnect_keeps_registry_entries two_sources two_sources_net))))
           silent (py "b") (py "source2") (JObj [])).
  by vm_compute.
Defined.

(** C7, the code at the failing input: [connect] tries every source
    whatever happens to the others, and raises exactly when the registry
    is empty afterwards.  With one reachable server that offers no tool
    it raises "Failed to connect to any MCP server" although that server
    is connected. *)
Theorem connect_raises_on_empty_registry :
  (forall net self,
     connections (fst (connect net self)) =
     map (fun nc => (fst nc, fst (MCPServerConnection.connect (net (fst nc)) (snd nc))))
         (connections self)) /\
  (forall net self,
     snd (connect net self) =
     if decide (_tool_to_server (fst (connect net self)) = ∅)
     then Raised (RuntimeError (py "Failed to connect to any MCP server"))
     else Returned tt) /\
  snd (connect toolless_net (__init__ toolless_source)) =
    Raised (RuntimeError (py "Failed to connect to any MCP server")) /\
  MCPServerConnection._connected <$>
    deref (fst (connect toolless_net (__init__ toolless_source))) (py "notes") = Some true.
Proof.
  split; [|split; [|split]].
  - intros net self. unfold connect.
    pose proof (connect_each_conns net (connections self) (_tool_to_server self)) as Hc.
    by destruct (connect_each net _ _).
  - intros net self. unfold connect. by destruct (connect_each net _ _).
  - by vm_compute.
  - by vm_compute.
Qed.

End RouterFacts.

(** ** [json.loads] reads back what [json.dumps] writes *)

Section JsonFacts.
Import Json.
Local Open Scope N_scope.

Lemma hex_value_digit d : d < 16 -> hex_value (hex_digit d) = Some d.
Proof.
  intros H. unfold hex_digit, hex_value.
  destruct (d <? 10) eqn:E.
  - apply N.ltb_lt in E.
    rewrite (proj2 (N.leb_le 48 (48 + d))) by lia.
    rewrite (proj2 (N.leb_le (48 + d) 57)) by lia. simpl. f_equal. lia.
  - apply N.ltb_ge in E.
    rewrite (proj2 (N.leb_le 48 (87 + d))) by lia.
    rewrite (proj2 (N.leb_gt (87 + d) 57)) by lia. simpl.
    rewrite (proj2 (N.leb_le 97 (87 + d))) by lia.
    rewrite (proj2 (N.leb_le (87 + d) 102)) by lia. simpl. f_equal. lia.
Qed.

Lemma decode_hex4 n tail : n < 65536 -> decode_uXXXX (hex4 n ++ tail) = Some (n, tail).
Proof.
  intros H. unfold hex4, decode_uXXXX. cbn [app].
  rewrite !hex_value_digit by (apply N.mod_lt; lia).
  do 2 f_equal.
  zify. Z.to_euclidean_division_equations. lia.
Qed.

Lemma lor_high a x : x < 1024 -> N.lor (a * 1024) x = a * 1024 + x.
Proof.
  intros Hx.
  assert (N.land (a * 1024) x = 0) as Hland.
  { apply N.bits_inj. intros i. rewrite N.land_spec, N.bits_0.
    change 1024 with (2 ^ 10). rewrite <- N.shiftl_mul_pow2.
    destruct (N.lt_ge_cases i 10) as [Hi|Hi].
    - by rewrite N.shiftl_spec_low.
    - rewrite <- (N.mod_small x (2 ^ 10)) by done.
      rewrite N.mod_pow2_bits_high by done. apply andb_false_r. }
  rewrite <- N.lxor_lor by done. symmetry. by apply N.add_nocarry_lxor.
Qed.

Lemma high_surrogate v :
  v < 1048576 -> N.lor 55296 (N.land (N.shiftr v 10) 1023) = 55296 + v / 1024.
Proof.
  intros Hv. change 1023 with (N.ones 10). rewrite N.land_ones, N.shiftr_div_pow2.
  change (2 ^ 10) with 1024.
  assert (v / 1024 < 1024) by (apply N.Div0.div_lt_upper_bound; lia).
  rewrite N.mod_small by done.
  change 55296 with (54 * 1024). by apply lor_high.
Qed.

Lemma low_surrogate v : N.lor 56320 (N.land v 1023) = 56320 + v mod 1024.
Proof.
  change 1023 with (N.ones 10). rewrite N.land_ones. change (2 ^ 10) with 1024.
  change 56320 with (55 * 1024). apply lor_high. apply N.mod_lt. lia.
Qed.

Lemma join_surrogates v :
  v < 1048576 ->
  N.lor (N.shiftl (55296 + v / 1024 - 55296) 10) (56320 + v mod 1024 - 56320) = v.
Proof.
  intros Hv. rewrite N.shiftl_mul_pow2. change (2 ^ 10) with 1024.
  rewrite (N.add_comm 55296), (N.add_comm 56320), !N.add_sub.
  rewrite lor_high by (apply N.mod_lt; lia).
  rewrite (N.div_mod v 1024) at 3 by lia. lia.
Qed.

Abbreviation consP c := (fun (t : str) (rest : str) => Parsed (c :: t) rest).

Lemma scanstring_raw f c r :
  32 <= c -> c <> 34 -> c <> 92 ->
  scanstring (S f) (c :: r) = bindP (scanstring f r) (consP c).
Proof.
  intros H32 H34 H92. cbn [scanstring].
  rewrite (proj2 (N.eqb_neq c 34)), (proj2 (N.eqb_neq c 92)) by done.
  by rewrite (proj2 (N.ltb_ge c 32)).
Qed.

Lemma scanstring_unicode f n tail :
  n < 65536 -> (55296 <=? n) && (n <=? 56319) = false ->
  scanstring (S f) (u_escape n ++ tail) = bindP (scanstring f tail) (consP n).
Proof.
  intros Hn Hs. unfold u_escape. cbn [app scanstring]. cbn [N.eqb Pos.eqb].
  unfold scan_unicode_escape. by rewrite decode_hex4, Hs.
Qed.

Lemma scanstring_pair f c tail :
  65536 <= c < 1114112 ->
  scanstring (S f)
    (u_escape (N.lor 55296 (N.land (N.shiftr (c - 65536) 10) 1023)) ++
     u_escape (N.lor 56320 (N.land (c - 65536) 1023)) ++ tail) =
  bindP (scanstring f tail) (consP c).
Proof.
  intros Hc. remember (c - 65536) as v eqn:Ev. assert (v < 1048576) as Hv by lia.
  rewrite high_surrogate, low_surrogate by done.
  pose proof (join_surrogates v Hv) as Hjoin. revert Hjoin.
  assert (v / 1024 < 1024) as Hq by (apply N.Div0.div_lt_upper_bound; lia).
  assert (v mod 1024 < 1024) as Hr by (apply N.mod_lt; lia).
  generalize dependent (v / 1024). generalize dependent (v mod 1024).
  intros r Hr q Hq Hjoin.
  unfold u_escape at 1. cbn [app scanstring]. cbn [N.eqb Pos.eqb].
  unfold scan_unicode_escape. rewrite decode_hex4 by lia.
  rewrite (proj2 (N.leb_le 55296 (55296 + q))) by lia.
  rewrite (proj2 (N.leb_le (55296 + q) 56319)) by lia.
  unfold u_escape. cbn [app startswith andb skipn]. cbn [N.eqb Pos.eqb andb skipn].
  rewrite drop_0, decode_hex4 by lia.
  rewrite (proj2 (N.leb_le 56320 (56320 + r))) by lia.
  rewrite (proj2 (N.leb_le (56320 + r) 57343)) by lia.
  cbn [andb]. rewrite Hjoin.
  replace (65536 + v) with c by lia. done.
Qed.

Lemma scanstring_escape ea c f tail :
  (ea = true -> is_scalar c = true) ->
  scanstring (S f) (escape_char ea c ++ tail) = bindP (scanstring f tail) (consP c).
Proof.
  intros Hvalid. unfold escape_char, escape_short.
  destruct (c =? 92) eqn:E92; [apply N.eqb_eq in E92 as ->; reflexivity|].
  destruct (c =? 34) eqn:E34; [apply N.eqb_eq in E34 as ->; reflexivity|].
  destruct (c =? 8) eqn:E8; [apply N.eqb_eq in E8 as ->; reflexivity|].
  destruct (c =? 12) eqn:E12; [apply N.eqb_eq in E12 as ->; reflexivity|].
  destruct (c =? 10) eqn:E10; [apply N.eqb_eq in E10 as ->; reflexivity|].
  destruct (c =? 13) eqn:E13; [apply N.eqb_eq in E13 as ->; reflexivity|].
  destruct (c =? 9) eqn:E9; [apply N.eqb_eq in E9 as ->; reflexivity|].
  apply N.eqb_neq in E92, E34.
  destruct (c <? 32) eqn:E32.
  { apply N.ltb_lt in E32. apply scanstring_unicode; [lia|].
    rewrite (proj2 (N.leb_gt 55296 c)); [done | lia]. }
  apply N.ltb_ge in E32.
  destruct (ea && (126 <? c)) eqn:Eascii; [|cbn [app]; by apply scanstring_raw].
  apply andb_true_iff in Eascii as [-> _]. specialize (Hvalid eq_refl).
  unfold is_scalar in Hvalid. apply andb_true_iff in Hvalid as [Hmax Hsur].
  apply N.ltb_lt in Hmax. apply negb_true_iff in Hsur.
  destruct (c <? 65536) eqn:Ebmp.
  - apply N.ltb_lt in Ebmp. apply scanstring_unicode; [done|].
    apply andb_false_iff in Hsur as [Hs|Hs]; apply andb_false_iff.
    + by left.
    + right. apply N.leb_gt in Hs. apply N.leb_gt. lia.
  - apply N.ltb_ge in Ebmp. cbv zeta. rewrite <- app_assoc.
    apply scanstring_pair. lia.
Qed.

Lemma scanstring_encoded ea s f rest :
  (ea = true -> valid_str s = true) -> (length s < f)%nat ->
  scanstring f (flat_map (escape_char ea) s ++ 34 :: rest) = Parsed s rest.
Proof.
  revert f. induction s as [|c s IH]; intros f Hvalid Hf.
  - destruct f as [|f]; [simpl in Hf; lia | reflexivity].
  - destruct f as [|f]; [simpl in Hf; lia|].
    cbn [flat_map]. rewrite <- app_assoc, scanstring_escape.
    + rewrite IH; [done | | simpl in Hf; lia].
      intros Hea. specialize (Hvalid Hea). simpl in Hvalid.
      by apply andb_true_iff in Hvalid as [_ ?].
    + intros Hea. specialize (Hvalid Hea). simpl in Hvalid.
      by apply andb_true_iff in Hvalid as [? _].
Qed.

Lemma terminated_float_tail rest : terminated rest -> float_tail rest = false.
Proof.
  destruct rest as [|c [|d r]]; try done.
  intros [->|[->| ->]]; reflexivity.
Qed.

Lemma scan_digits_chars u rest :
  terminated rest -> scan_digits (uint_chars u ++ rest) = (u, rest).
Proof.
  intros Hrest. induction u; cbn [uint_chars app scan_digits];
    try (cbn [digit_of N.eqb Pos.eqb]; by rewrite IHu).
  destruct rest as [|c r]; [done|].
  cbn [scan_digits]. by destruct Hrest as [->|[->| ->]].
Qed.

Lemma nzhead_head d : match Decimal.nzhead d with D0 _ => False | _ => True end.
Proof. induction d; done. Qed.

Lemma to_uint_normal p : Decimal.unorm (Pos.to_uint p) = Pos.to_uint p.
Proof.
  rewrite <- DecimalPos.Unsigned.to_of, DecimalPos.Unsigned.of_to. reflexivity.
Qed.

Lemma to_uint_chars p :
  exists c r, uint_chars (Pos.to_uint p) = c :: r /\ is_digit c = true /\ c <> 48.
Proof.
  pose proof (to_uint_normal p) as Hn. pose proof (DecimalPos.Unsigned.to_uint_nonzero p) as Hz.
  pose proof (nzhead_head (Pos.to_uint p)) as Hh.
  unfold Decimal.unorm in Hn.
  destruct (Decimal.nzhead (Pos.to_uint p)) as [|u|u|u|u|u|u|u|u|u|u] eqn:E;
    try done; rewrite <- Hn; cbn [uint_chars]; eexists _, _; (split; [reflexivity|]); done.
Qed.

Lemma scan_number_repr z rest :
  terminated rest -> scan_number (int_repr z ++ rest) = Parsed (JInt z) rest.
Proof.
  intros Hrest. unfold int_repr.
  destruct z as [|p|p]; cbn [Z.to_int].
  - unfold scan_number. cbn. by rewrite terminated_float_tail.
  - destruct (to_uint_chars p) as (c & r & Hc & Hd & H0).
    pose proof (scan_digits_chars (Pos.to_uint p) rest Hrest) as Hs. rewrite Hc in *.
    unfold is_digit in Hd. apply andb_true_iff in Hd as Hd'. destruct Hd' as [Hlo Hhi].
    apply N.leb_le in Hlo, Hhi.
    unfold scan_number. cbn [app startswith].
    rewrite (proj2 (N.eqb_neq 45 c)) by lia. cbn [andb].
    unfold is_digit. rewrite Hd, (proj2 (N.eqb_neq c 48)) by done.
    cbn [app] in Hs. rewrite Hs, terminated_float_tail by done.
    unfold Z.of_uint. by rewrite DecimalPos.Unsigned.of_to.
  - destruct (to_uint_chars p) as (c & r & Hc & Hd & H0).
    pose proof (scan_digits_chars (Pos.to_uint p) rest Hrest) as Hs. rewrite Hc in *.
    unfold scan_number. cbn [app startswith N.eqb Pos.eqb andb skipn].
    rewrite Hd, (proj2 (N.eqb_neq c 48)) by done.
    cbn [app] in Hs. rewrite Hs, terminated_float_tail by done.
    unfold Z.of_uint. by rewrite DecimalPos.Unsigned.of_to.
Qed.

Lemma int_repr_head z :
  exists c r, int_repr z = c :: r /\ (is_digit c = true \/ c = 45).
Proof.
  unfold int_repr. destruct z as [|p|p]; cbn [Z.to_int].
  - eexists _, _. split; [reflexivity | by left].
  - destruct (to_uint_chars p) as (c & r & -> & Hd & _). eauto.
  - eexists _, _. split; [reflexivity | by right].
Qed.

Lemma dumps_head ea v : exists c r, dumps ea v = c :: r /\ opens c.
Proof.
  unfold opens. destruct v as [|[|]|n|s|items|members].
  - exists 110, (py "ull"). by intuition.
  - exists 116, (py "rue"). by intuition.
  - exists 102, (py "alse"). by intuition.
  - destruct (int_repr_head n) as (c & r & Hc & Hd). exists c, r.
    split; [done|]. destruct Hd; by intuition.
  - eexists _, _. split; [reflexivity | by intuition].
  - eexists _, _. split; [reflexivity | by intuition].
  - eexists _, _. split; [reflexivity | by intuition].
Qed.

Lemma opens_not_ws c : opens c -> is_ws c = false.
Proof.
  unfold opens, is_digit, is_ws.
  intros [->|[->|[->|[->|[->|[->|[->|H]]]]]]]; try reflexivity.
  apply andb_true_iff in H as [H1 H2]. apply N.leb_le in H1, H2.
  rewrite !(proj2 (N.eqb_neq c _)); [done | lia..].
Qed.

Lemma skip_ws_dumps ea v rest : skip_ws (dumps ea v ++ rest) = dumps ea v ++ rest.
Proof.
  destruct (dumps_head ea v) as (c & r & -> & Hc). cbn [app skip_ws].
  by rewrite opens_not_ws.
Qed.

Lemma dict_set_fresh {V} (k : str) (v : V) (d : list (str * V)) :
  k ∉ d.*1 -> dict_set k v d = d ++ [(k, v)].
Proof.
  induction d as [|[k' v'] d IH]; intros Hk; simpl; [done|].
  rewrite fmap_cons, not_elem_of_cons in Hk. destruct Hk as [Hne Hk].
  rewrite decide_False by done. by rewrite IH.
Qed.

Lemma dict_fold_nodup {V} (pairs acc : list (str * V)) :
  NoDup (acc ++ pairs).*1 ->
  fold_left (fun d kv => dict_set (fst kv) (snd kv) d) pairs acc = acc ++ pairs.
Proof.
  revert acc. induction pairs as [|[k v] pairs IH]; intros acc Hnd; simpl.
  - by rewrite app_nil_r.
  - rewrite dict_set_fresh.
    + rewrite IH; by rewrite <- app_assoc.
    + rewrite fmap_app, fmap_cons in Hnd. apply NoDup_app in Hnd as (_ & Hdisj & _).
      intros Hin. apply (Hdisj k Hin). by left.
Qed.

Lemma dict_nodup {V} (pairs : list (str * V)) : NoDup pairs.*1 -> dict pairs = pairs.
Proof. intros Hnd. unfold dict. by rewrite dict_fold_nodup. Qed.

Lemma escape_char_length ea c : (1 <= length (escape_char ea c))%nat.
Proof.
  unfold escape_char, escape_short.
  repeat (match goal with |- context [if ?b then _ else _] => destruct b end);
    cbn; lia.
Qed.

Lemma escape_length ea s : (length s <= length (flat_map (escape_char ea) s))%nat.
Proof.
  induction s as [|c s IH]; [done|]. cbn [flat_map]. rewrite length_app.
  pose proof (escape_char_length ea c). simpl. lia.
Qed.

Section Reading.
Variable ea : bool.

Lemma scan_once_number f c r :
  is_digit c = true \/ c = 45 -> scan_once (S f) (c :: r) = scan_number (c :: r).
Proof.
  intros Hc.
  assert (c <> 34 /\ c <> 123 /\ c <> 91 /\ c <> 110 /\ c <> 116 /\ c <> 102) as Hne.
  { destruct Hc as [Hd| ->]; [|by repeat split].
    unfold is_digit in Hd. apply andb_true_iff in Hd as [H1 H2].
    apply N.leb_le in H1, H2. lia. }
  destruct Hne as (H1 & H2 & H3 & H4 & H5 & H6).
  cbn [scan_once].
  rewrite !(proj2 (N.eqb_neq c _)) by done.
  change (py "null") with [110; 117; 108; 108].
  change (py "true") with [116; 114; 117; 101].
  change (py "false") with [102; 97; 108; 115; 101].
  cbn [startswith]. rewrite !(proj2 (N.eqb_neq _ c)) by done. reflexivity.
Qed.

Lemma join_cons2 sep (p q : str) parts :
  join sep (p :: q :: parts) = p ++ sep ++ join sep (q :: parts).
Proof. reflexivity. Qed.

Lemma skip_ws_join items rest :
  items <> [] ->
  skip_ws (join (py ", ") (map (dumps ea) items) ++ rest) =
  join (py ", ") (map (dumps ea) items) ++ rest.
Proof.
  destruct items as [|x [|y items]]; [done | intros _ ..].
  - apply skip_ws_dumps.
  - rewrite !map_cons, join_cons2, <- !app_assoc. apply skip_ws_dumps.
Qed.

Lemma array_items_dumps items rest (fuel : nat) :
  items <> [] -> Forall (reads_back ea) items -> forallb valid items = true ->
  (length (join (py ", ") (map (dumps ea) items)) < fuel)%nat ->
  array_items fuel (join (py ", ") (map (dumps ea) items) ++ 93 :: rest) =
  Parsed items rest.
Proof.
  intros Hne Hall. revert fuel rest.
  induction Hall as [|x items Hx Hall IH]; [done|]. clear Hne.
  intros fuel rest Hvalid Hfuel. cbn [forallb] in Hvalid.
  apply andb_true_iff in Hvalid as [Hvx Hvalid].
  destruct fuel as [|fuel]; [exfalso; lia|].
  destruct items as [|y items].
  - cbn [map join] in *. cbn [array_items].
    rewrite (Hx Hvx); [reflexivity | lia | by right; left].
  - rewrite map_cons, (map_cons _ y), join_cons2 in *.
    rewrite <- (map_cons (dumps ea) y items) in *.
    rewrite !length_app in Hfuel. change (length (py ", ")) with 2%nat in Hfuel.
    rewrite <- !app_assoc. cbn [array_items].
    rewrite (Hx Hvx); [|lia|by left].
    change (py ", " ++ ?t) with (44 :: 32 :: t).
    cbn [bindP skip_ws is_ws N.eqb Pos.eqb orb].
    rewrite skip_ws_join by done.
    rewrite IH; [done | done | done | lia].
Qed.

Lemma join_object_body k x more :
  join (py ", ")
    (map (fun kv => encode_basestring ea (fst kv) ++ py ": " ++ dumps ea (snd kv))
         ((k, x) :: more)) = 34 :: object_body ea k x more.
Proof.
  revert k x. induction more as [|[k' x'] more IH]; intros k x.
  - cbn [map join object_body fst snd]. unfold encode_basestring.
    change (py ": ") with [58; 32]. cbn [app]. rewrite <- !app_assoc.
    by rewrite app_nil_r.
  - specialize (IH k' x'). cbn [map join object_body fst snd] in *. rewrite IH.
    unfold encode_basestring. change (py ": ") with [58; 32].
    change (py ", ") with [44; 32]. cbn [app]. by rewrite <- !app_assoc.
Qed.

Ltac lengths H := repeat first [rewrite length_app in H | progress cbn [length] in H].

Lemma object_pairs_dumps k x more rest (fuel : nat) :
  Forall (fun kv => reads_back ea (snd kv)) ((k, x) :: more) ->
  forallb (fun kv => valid_str (fst kv) && valid (snd kv)) ((k, x) :: more) = true ->
  (length (object_body ea k x more) < fuel)%nat ->
  object_pairs fuel (object_body ea k x more ++ 125 :: rest) = Parsed ((k, x) :: more) rest.
Proof.
  revert k x fuel. induction more as [|[k' x'] more IH]; intros k x fuel Hall Hvalid Hfuel.
  - apply Forall_cons_1 in Hall as [Hx _]. cbn [forallb fst snd] in Hvalid, Hx.
    apply andb_true_iff in Hvalid as [Hv _]. apply andb_true_iff in Hv as [Hk Hvx].
    destruct fuel as [|fuel]; [exfalso; lia|].
    cbn [object_body] in *. rewrite app_nil_r in *.
    lengths Hfuel.
    cbn [object_pairs]. rewrite <- !app_assoc. cbn [app].
    rewrite scanstring_encoded; [|done|].
    2: { rewrite length_app. pose proof (escape_length ea k). cbn [length]. lia. }
    cbn [bindP skip_ws is_ws N.eqb Pos.eqb orb]. rewrite skip_ws_dumps.
    rewrite (Hx Hvx); [|lia|by right; right]. reflexivity.
  - apply Forall_cons_1 in Hall as [Hx Hall]. cbn [forallb fst snd] in Hvalid, Hx.
    apply andb_true_iff in Hvalid as [Hv Hvalid]. apply andb_true_iff in Hv as [Hk Hvx].
    destruct fuel as [|fuel]; [exfalso; lia|].
    cbn [object_body fst snd] in *. fold (object_body ea k' x' more) in *.
    lengths Hfuel.
    cbn [object_pairs]. rewrite <- !app_assoc. cbn [app]. rewrite <- !app_assoc. cbn [app].
    rewrite scanstring_encoded; [|done|].
    2: { rewrite length_app. pose proof (escape_length ea k). cbn [length]. lia. }
    cbn [bindP skip_ws is_ws N.eqb Pos.eqb orb]. rewrite skip_ws_dumps.
    rewrite (Hx Hvx); [|lia|by left].
    cbn [bindP skip_ws is_ws N.eqb Pos.eqb orb].
    rewrite IH; [done | done | done | lia].
Qed.

Lemma scan_once_dumps v : reads_back ea v.
Proof.
  induction v as [|b|n|s|items IH|members IH] using json_ind;
    intros Hvalid fuel rest Hfuel Hrest.
  - destruct fuel as [|fuel]; [exfalso; simpl in Hfuel; lia | reflexivity].
  - destruct fuel as [|fuel]; [exfalso; destruct b; simpl in Hfuel; lia | by destruct b].
  - destruct (int_repr_head n) as (c & r & Hc & Hd).
    cbn [dumps] in *. destruct fuel as [|fuel]; [exfalso; rewrite Hc in Hfuel; simpl in Hfuel; lia|].
    pose proof (scan_number_repr n rest Hrest) as Hs. rewrite Hc in *.
    cbn [app] in *. by rewrite scan_once_number.
  - cbn [dumps valid] in *. unfold encode_basestring in *.
    destruct fuel as [|fuel]; [exfalso; simpl in Hfuel; lia|].
    cbn [app scan_once N.eqb Pos.eqb]. rewrite <- app_assoc. cbn [app].
    rewrite scanstring_encoded; [done | done |].
    rewrite length_app. pose proof (escape_length ea s). cbn [length]. lia.
  - cbn [dumps valid] in *. destruct fuel as [|fuel]; [exfalso; simpl in Hfuel; lia|].
    cbn [length] in Hfuel. rewrite length_app in Hfuel. cbn [length] in Hfuel.
    destruct items as [|x items]; [reflexivity|].
    cbn [app scan_once N.eqb Pos.eqb]. rewrite <- app_assoc. cbn [app].
    rewrite skip_ws_join by done.
    pose proof (array_items_dumps (x :: items) rest fuel) as Harr.
    destruct (dumps_head ea x) as (c & r & Hc & Hopen).
    assert (exists t, join (py ", ") (map (dumps ea) (x :: items)) ++ 93 :: rest = c :: t)
      as [t Ht].
    { destruct items; [cbn [map join] | rewrite !map_cons, join_cons2];
        rewrite Hc; cbn [app]; eauto. }
    rewrite Ht in *.
    assert (c <> 93) as Hc93.
    { unfold opens, is_digit in Hopen.
      destruct Hopen as [->|[->|[->|[->|[->|[->|[->|H]]]]]]]; try done.
      apply andb_true_iff in H as [H1 H2]. apply N.leb_le in H1, H2. lia. }
    rewrite (proj2 (N.eqb_neq c 93)) by done.
    rewrite Harr; [done | done | done | done | lia].
  - cbn [dumps valid] in *. destruct fuel as [|fuel]; [exfalso; simpl in Hfuel; lia|].
    cbn [length] in Hfuel. rewrite length_app in Hfuel. cbn [length] in Hfuel.
    apply andb_true_iff in Hvalid as [Hnodup Hvalid]. apply bool_decide_eq_true in Hnodup.
    destruct members as [|[k x] members]; [reflexivity|].
    rewrite join_object_body in *. cbn [length] in Hfuel.
    cbn [app scan_once N.eqb Pos.eqb skip_ws is_ws orb]. rewrite <- app_assoc. cbn [app].
    rewrite object_pairs_dumps; [|done|done|lia].
    cbn [bindP]. by rewrite dict_nodup.
Qed.

End Reading.

Lemma loads_dumps ea v : valid v = true -> loads (dumps ea v) = Value v.
Proof.
  intros Hvalid. unfold loads.
  destruct (dumps_head ea v) as (c & r & Hc & Hopen).
  assert (startswith [65279] (dumps ea v) = false) as ->.
  { rewrite Hc. cbn [startswith]. apply andb_false_iff. left. apply N.eqb_neq.
    unfold opens, is_digit in Hopen.
    destruct Hopen as [->|[->|[->|[->|[->|[->|[->|H]]]]]]]; try done.
    apply andb_true_iff in H as [H1 H2]. apply N.leb_le in H1, H2. lia. }
  pose proof (scan_once_dumps ea v Hvalid (S (length (dumps ea v))) []) as Hs.
  pose proof (skip_ws_dumps ea v []) as Hw. rewrite app_nil_r in Hs, Hw.
  rewrite Hw, Hs; [done | lia | done].
Qed.

End JsonFacts.

(** ** The cache-check node *)

Section GraphFacts.
Import Graph.

(** C10: whatever the sub-agent answers, the cache-check node puts all
    requested cities in [cached_cities] and none in [missing_cities], or
    all in [missing_cities] and none in [cached_cities]; [needs_fetch] is
    true exactly when [missing_cities] is not empty. *)
Theorem check_cache_all_or_nothing (lower : str -> str) (cities : list str)
    (last_message : agent_message) :
  let out := CheckCacheNode lower cities last_message in
  ((cached_cities out = cities /\ missing_cities out = []) \/
   (missing_cities out = cities /\ cached_cities out = [])) /\
  (needs_fetch out = true <-> missing_cities out <> []).
Proof.
  intros out. subst out. unfold CheckCacheNode. cbn [cached_cities missing_cities needs_fetch].
  set (no_cache := existsb _ no_cache_indicators).
  set (found := existsb _ found_indicators).
  split.
  - destruct (no_cache || negb (found && negb no_cache)); [by right | by left].
  - destruct (if no_cache || negb (found && negb no_cache) then cities else [])
      as [|c rest]; simpl; split; intros H; try done; try discriminate.
Qed.

End GraphFacts.

(** ** The response adapters *)

Section AdapterFacts.
Import Json OpenAI Adapter.

Lemma convert_loop_imap tcs acc :
  LLMClient.convert_loop tcs acc =
  acc ++ imap (fun i => convert_tool_call (length acc + i)) tcs.
Proof.
  revert acc. induction tcs as [|tc tcs IH]; intros acc; simpl.
  - by rewrite app_nil_r.
  - rewrite IH, length_app, <- app_assoc. simpl. f_equal.
    rewrite Nat.add_0_r. f_equal. apply imap_ext. intros i x _. simpl.
    f_equal. lia.
Qed.

(** The two adapters build the same message. *)
Lemma adapters_agree response :
  LLMClient._convert_ollama_to_openai response = OllamaClient._to_openai_format response.
Proof.
  unfold LLMClient._convert_ollama_to_openai, OllamaClient._to_openai_format.
  do 2 f_equal. unfold OllamaClient._convert_tool_calls.
  destruct (m_tool_calls _) as [[|tc tcs]|]; try done.
  by rewrite convert_loop_imap.
Qed.

(** C9: when the content channel of the backend's message is empty and
    its reasoning channel is not, both adapters give the reasoning text
    as the content of the assistant message; when the content channel is
    not empty they give it unchanged, whatever the reasoning channel
    holds. *)
Theorem thinking_surfaces_when_content_is_empty (response : OllamaResponse)
    (message : OllamaMessage) :
  r_message response = Some message ->
  (forall thought,
     truthy (m_content message) = false ->
     m_thinking message = Some thought -> thought <> [] ->
     content (c_message (OllamaClient._to_openai_format response)) = Some thought /\
     content (c_message (LLMClient._convert_ollama_to_openai response)) = Some thought) /\
  (forall text,
     m_content message = Some text -> text <> [] ->
     content (c_message (OllamaClient._to_openai_format response)) = Some text /\
     content (c_message (LLMClient._convert_ollama_to_openai response)) = Some text).
Proof.
  intros Hm. rewrite adapters_agree.
  unfold OllamaClient._to_openai_format. rewrite Hm. simpl.
  unfold resolve_content. cbv zeta. split.
  - intros thought Hc Ht Hne. rewrite Hc, Ht.
    destruct thought as [|c thought]; [done|]. by simpl.
  - intros text Hc Hne. rewrite Hc.
    destruct text as [|c text]; [done|]. by simpl.
Qed.

(** The instance of C9 at a reasoning-only answer and at a plain one. *)
Lemma thinking_surfaces_when_content_is_empty_witness :
  content (c_message (OllamaClient._to_openai_format thoughtful_response))
    = Some (py "The user wants the weather.") /\
  content (c_message (LLMClient._convert_ollama_to_openai plain_response))
    = Some (py "It is sunny.").
Proof.
  split.
  - apply (proj1 (thinking_surfaces_when_content_is_empty thoughtful_response _ eq_refl)
             (py "The user wants the weather.")); [reflexivity | reflexivity | discriminate].
  - apply (proj2 (thinking_surfaces_when_content_is_empty plain_response _ eq_refl)
             (py "It is sunny.")); [reflexivity | discriminate].
Defined.



End AdapterFacts.

(** ** The single-shot agent *)

Section Lesson1Facts.
Import Json OpenAI Lesson1.



End Lesson1Facts.

(** ** The loop with an iteration cap *)

Section Lesson2Facts.
Import Json Mcp OpenAI Lesson2.






(** C5 (as amended): [mcp_tool_response_to_text] of lesson 2 returns the
    structured payload, serialized as JSON, when the response has one,
    and otherwise joins the parts of the content list with newlines, in
    their order, a part without text being shown through [str].  The
    router's [call_tool] of lesson 5 does not look at the structured
    payload: it joins the text parts of the content list with newlines,
    in their order, and answers "No response content" when the list is
    empty. *)
Theorem tool_responses_flatten_to_text :
  (forall resp sc, structuredContent resp = Some sc ->
     mcp_tool_response_to_text resp = dumps false sc) /\
  (forall resp, structuredContent resp = None ->
     mcp_tool_response_to_text resp =
     join [10%N]
       (map (fun p => match p with TextContent text => text | OtherContent shown => shown end)
            (Mcp.content resp))) /\
  (forall call self tool_name parameters ref conn session resp,
     Router.MultiMCPClient._tool_to_server self !! tool_name = Some ref ->
     Router.MultiMCPClient.deref self ref = Some conn ->
     Router.MCPServerConnection.session conn = Some session ->
     call session tool_name parameters = Reply resp ->
     Router.MultiMCPClient.call_tool call self tool_name parameters =
     Returned (match Mcp.content resp with
               | [] => py "No response content"
               | parts => join [10%N] (Router.MultiMCPClient.text_parts parts)
               end)).
Proof.
  split; [|split].
  - intros resp sc Hsc. unfold mcp_tool_response_to_text. by rewrite Hsc.
  - intros resp Hsc. unfold mcp_tool_response_to_text. by rewrite Hsc.
  - intros call self tool_name parameters ref conn session resp Hreg Hd Hs Hr.
    unfold Router.MultiMCPClient.call_tool. rewrite Hreg, Hd, Hs.
    unfold Router.MultiMCPClient.tool_text. by rewrite Hr.
Qed.

(** C5, refuted as stated: for a response with a text part and a
    structured payload, the router's [call_tool] returns the text, not
    the payload that [mcp_tool_response_to_text] prefers. *)
Lemma router_ignores_structured_payload :
  Router.MultiMCPClient.call_tool structured_server
    (fst (Router.MultiMCPClient.connect Router.two_sources_net
            (Router.MultiMCPClient.__init__ Router.two_sources)))
    (py "a") (JObj []) = Returned (py "sunny") /\
  mcp_tool_response_to_text structured_reply = dumps false (JObj [(py "temperature", JInt 21)]) /\
  dumps false (JObj [(py "temperature", JInt 21)]) <> py "sunny".
Proof. repeat split; by vm_compute. Qed.

(** The instance of C5 at that response. *)
Lemma tool_responses_flatten_to_text_witness :
  mcp_tool_response_to_text structured_reply = dumps false (JObj [(py "temperature", JInt 21)]) /\
  Router.MultiMCPClient.call_tool structured_server
    (fst (Router.MultiMCPClient.connect Router.two_sources_net
            (Router.MultiMCPClient.__init__ Router.two_sources)))
    (py "a") (JObj []) = Returned (py "sunny").
Proof.
  split.
  - by apply (proj1 tool_responses_flatten_to_text structured_reply).
  - apply (proj2 (proj2 tool_responses_flatten_to_text) structured_server _ (py "a") (JObj [])
             (py "source1")
             (Router.MCPServerConnection.mk (py "source1") (py "http://localhost:8002")
                (Some {| endpoint := py "http://localhost:8002/mcp" |})
                [py "a"; py "b"] true)
             {| endpoint := py "http://localhost:8002/mcp" |} structured_reply);
      by vm_compute.
Defined.

End Lesson2Facts.

(** * Further properties of the embedded code *)

(** ** More on the router *)

Section RouterHistories.
Import Json Mcp Router.
Import MultiMCPClient.






End RouterHistories.

Section RouterNames.
Import Json Mcp Router.
Import MultiMCPClient Listing.

Lemma named_init servers : named (__init__ servers).
Proof. unfold named. eapply Forall_impl; [apply init_names|]. by intros nc [? _]. Qed.

Lemma named_step self o : named self -> named (step self o).
Proof.
  unfold named. intros H. destruct o as [net|]; simpl.
  - unfold connect.
    pose proof (connect_each_conns net (connections self) (_tool_to_server self)) as Hc.
    destruct (connect_each net _ _) as [conns reg]. simpl in *. subst conns.
    induction H as [|[n c] l Hn _ IH]; constructor; [|done].
    simpl in *. unfold MCPServerConnection.connect. by destruct (net n).
  - induction H as [|[n c] l Hn _ IH]; constructor; [|done].
    simpl in *. unfold MCPServerConnection.disconnect.
    by destruct (MCPServerConnection._connected c).
Qed.

Lemma named_run servers ops : named (run servers ops).
Proof.
  unfold run. generalize (named_init servers). generalize (__init__ servers).
  induction ops as [|o ops IH]; intros self H; [done|]. simpl. by apply IH, named_step.
Qed.

Lemma dict_set_keys {V} (k : str) (v : V) (d : list (str * V)) (n : str) :
  n ∈ (dict_set k v d).*1 <-> n = k \/ n ∈ d.*1.
Proof.
  induction d as [|[k' v'] d IH]; simpl.
  - rewrite list_elem_of_singleton. split; [by left | intros [?|H]; [done | inversion H]].
  - case_decide; subst; simpl; rewrite !elem_of_cons; [tauto|]. rewrite IH. tauto.
Qed.

Lemma init_keys servers n : n ∈ (connections (__init__ servers)).*1 <-> n ∈ servers.*1.
Proof.
  simpl.
  assert (forall d : list (str * MCPServerConnection.t),
            n ∈ (fold_left (fun d nu => dict_set (fst nu)
                              (MCPServerConnection.__init__ (fst nu) (snd nu)) d) servers d).*1
            <-> n ∈ servers.*1 \/ n ∈ d.*1) as H.
  { induction servers as [|[k u] servers IH]; intros d; simpl.
    - split; [by right | intros [H|H]; [inversion H | done]].
    - rewrite IH, dict_set_keys, elem_of_cons. tauto. }
  rewrite H. split; [intros [?|Hn]; [done | inversion Hn] | by left].
Qed.

Lemma step_keys self o : (connections (step self o)).*1 = (connections self).*1.
Proof.
  destruct o as [net|]; [|apply disconnect_keys]. simpl. unfold connect.
  pose proof (connect_each_keys net (connections self) (_tool_to_server self)) as Hk.
  by destruct (connect_each net _ _).
Qed.

Lemma run_keys servers ops : (connections (run servers ops)).*1 = (connections (__init__ servers)).*1.
Proof.
  unfold run. generalize (__init__ servers). induction ops as [|o ops IH]; intros self; [done|].
  simpl. by rewrite IH, step_keys.
Qed.

(** X2: in every state that [connect] and [disconnect] calls lead to,
    [get_server_for_tool] answers with the name the owner of the tool
    was configured under, which is its key in the registry model, and
    with [None] exactly for the tools that have no registry entry; the
    name is one of the configured servers. *)
Theorem get_server_for_tool_names_the_owner (servers : list (str * str)) (ops : list op)
    (tool : str) :
  get_server_for_tool (run servers ops) tool = _tool_to_server (run servers ops) !! tool /\
  (forall n, get_server_for_tool (run servers ops) tool = Some n -> n ∈ servers.*1).
Proof.
  assert (get_server_for_tool (run servers ops) tool = _tool_to_server (run servers ops) !! tool)
    as E.
  { unfold get_server_for_tool.
    destruct (_tool_to_server (run servers ops) !! tool) as [ref|] eqn:Hr; [|done].
    pose proof (refs_valid_run servers ops tool ref Hr) as Hin.
    apply dict_get_is_Some in Hin as [conn Hc]. unfold deref. rewrite Hc. simpl.
    pose proof (dict_get_Forall _ _ _ _ (named_run servers ops) Hc) as Hn.
    simpl in Hn. by rewrite Hn. }
  split; [done|]. intros n. rewrite E. intros Hn.
  apply init_keys. rewrite <- (run_keys servers ops). by apply (refs_valid_run servers ops tool).
Qed.

Lemma get_server_for_tool_names_the_owner_witness :
  get_server_for_tool (run two_sources [Connect two_sources_net; Disconnect]) (py "b") =
    Some (py "source2") /\
  py "source2" ∈ two_sources.*1.
Proof.
  split; [by vm_compute|].
  apply (proj2 (get_server_for_tool_names_the_owner two_sources
                  [Connect two_sources_net; Disconnect] (py "b"))).
  by vm_compute.
Defined.

End RouterNames.

Section RouterUrls.
Import Json Mcp Router.

Lemma rstrip_slashes c k : rstrip c (replicate k c) = [].
Proof. induction k as [|k IH]; simpl; [done|]. by rewrite IH, N.eqb_refl. Qed.

Lemma rstrip_app_slashes c s k : rstrip c (s ++ replicate k c) = rstrip c s.
Proof.
  induction s as [|x s IH]; simpl; [apply rstrip_slashes|]. by rewrite IH.
Qed.

Lemma rstrip_split c s : exists k, s = rstrip c s ++ replicate k c.
Proof.
  induction s as [|x s [k IH]]; simpl; [by exists 0%nat|].
  destruct (rstrip c s) as [|y r] eqn:E.
  - destruct (N.eqb_spec x c) as [->|_].
    + exists (S k). simpl. by rewrite IH at 1.
    + exists k. simpl. by rewrite IH at 1.
  - exists k. simpl. by rewrite IH at 1.
Qed.

Lemma rstrip_last c s : last (rstrip c s) <> Some c.
Proof.
  induction s as [|x s IH]; simpl; [done|].
  destruct (rstrip c s) as [|y r] eqn:E.
  - destruct (N.eqb_spec x c) as [->|Hne]; simpl; congruence.
  - by rewrite last_cons_cons.
Qed.

(** X3: a server URL is stored without its trailing slashes, however many
    there are, and nothing else of it is changed: URLs that differ in
    trailing slashes only give the same connection object, and the
    session is opened at the stored URL followed by one [/mcp]. *)
Theorem trailing_slashes_are_dropped (name url : str) (k : nat) (names : list str) :
  MCPServerConnection.__init__ name (url ++ replicate k 47%N) =
    MCPServerConnection.__init__ name url /\
  (exists j, url = MCPServerConnection.server_url (MCPServerConnection.__init__ name url) ++
                   replicate j 47%N) /\
  last (MCPServerConnection.server_url (MCPServerConnection.__init__ name url)) <> Some 47%N /\
  MCPServerConnection.session
    (fst (MCPServerConnection.connect (ToolsListed names)
            (MCPServerConnection.__init__ name (url ++ replicate k 47%N)))) =
    Some {| endpoint := rstrip 47%N url ++ py "/mcp" |}.
Proof.
  unfold MCPServerConnection.__init__. simpl. rewrite rstrip_app_slashes.
  split; [done|]. split; [apply rstrip_split|]. split; [apply rstrip_last | done].
Qed.

End RouterUrls.

Section RouterSessions.
Import Json Mcp Router.
Import MultiMCPClient.

Lemma disconnect_twice (c : MCPServerConnection.t) :
  MCPServerConnection.disconnect (MCPServerConnection.disconnect c) =
  MCPServerConnection.disconnect c.
Proof.
  unfold MCPServerConnection.disconnect.
  destruct (MCPServerConnection._connected c) eqn:E; simpl; [done | by rewrite E].
Qed.

(** X4: [disconnect] is idempotent, and it changes sessions and connection
    flags only: the registry, the names, the URLs and the cached tool
    lists of the connections are as before. *)
Theorem disconnect_is_idempotent (self : t) :
  disconnect (disconnect self) = disconnect self /\
  _tool_to_server (disconnect self) = _tool_to_server self /\
  map (fun nc => (fst nc, MCPServerConnection.name (snd nc),
                  MCPServerConnection.server_url (snd nc), MCPServerConnection.tools (snd nc)))
      (connections (disconnect self)) =
  map (fun nc => (fst nc, MCPServerConnection.name (snd nc),
                  MCPServerConnection.server_url (snd nc), MCPServerConnection.tools (snd nc)))
      (connections self).
Proof.
  unfold disconnect. simpl. split; [|split; [done|]].
  - f_equal. rewrite map_map. apply map_ext. intros [n c]. simpl. f_equal.
    unfold MCPServerConnection.disconnect.
    destruct (MCPServerConnection._connected c) eqn:E; simpl; by rewrite ?E.
  - rewrite map_map. apply map_ext. intros [n c]. simpl.
    unfold MCPServerConnection.disconnect.
    by destruct (MCPServerConnection._connected c).
Qed.



End RouterSessions.

Section RouterListing.
Import Json Mcp Router.
Import MultiMCPClient Listing.






End RouterListing.

(** ** More on the agent loops *)

Section LoopInvariants.
Import Json Mcp OpenAI Lesson2.

(** One round of tool calls, whatever its outcome, asks the model
    nothing and only appends to the conversation. *)
Lemma dispatch_all_extends call session calls e :
  llm_calls (fst (dispatch_all call session calls e)) = llm_calls e /\
  messages e `prefix_of` messages (fst (dispatch_all call session calls e)).
Proof.
  revert e. induction calls as [|tc calls IH]; intros e; simpl; [done|].
  destruct (loads (arguments_text tc)) as [v| |]; simpl; try done.
  destruct (call session (name (function tc)) v) as [r|text]; simpl; [|done].
  destruct (IH (append (tool_message (name (function tc)) (mcp_tool_response_to_text r))
                  (called (name (function tc)) v e))) as [-> Hp].
  split; [done|]. etrans; [|apply Hp]. simpl. by apply prefix_app_r.
Qed.

Lemma loop_extends llm call session tools remaining e :
  (llm_calls (fst (loop llm call session tools remaining e)) <= llm_calls e + remaining)%nat /\
  messages e `prefix_of` messages (fst (loop llm call session tools remaining e)).
Proof.
  revert e. induction remaining as [|remaining IH]; intros e; simpl.
  - split; [lia | done].
  - destruct (llm (messages e) tools) as [m|text]; simpl; [|split; [lia | done]].
    destruct (has_tool_calls m); simpl.
    + pose proof (dispatch_all_extends call session (default [] (tool_calls m))
                    (append (Completion m) (asked e))) as [Hn Hp].
      destruct (dispatch_all _ _ _ _) as [e1 [[]|x|]]; simpl in *.
      * destruct (IH e1) as [Hn' Hp']. split; [lia|].
        etrans; [|apply Hp']. etrans; [|apply Hp]. by apply prefix_app_r.
      * split; [lia|]. etrans; [|apply Hp]. by apply prefix_app_r.
      * split; [lia|]. etrans; [|apply Hp]. by apply prefix_app_r.
    + split; [lia | by apply prefix_app_r].
Qed.

(** X7: in every run of the lesson-2 agent, however it ends (an answer, the
    sentinel, an exception of the model, of a tool or of [json.loads]),
    the model is asked at most [max_iterations] times, and the
    conversation it was given is only appended to: it is a prefix of the
    conversation at the end. *)
Theorem run_is_bounded_and_append_only (self : Agent) (llm : chat) (call : transport)
    (session : ClientSession) (tools : list json) (conversation : list message) :
  (llm_calls (fst (run self llm call session tools conversation)) <= max_iterations self)%nat /\
  conversation `prefix_of` messages (fst (run self llm call session tools conversation)).
Proof.
  unfold run. apply (loop_extends llm call session tools (max_iterations self) (start conversation)).
Qed.

Lemma loop_outcome llm call session tools remaining e :
  match loop llm call session tools remaining e with
  | (e', Returned (Message m)) =>
      has_tool_calls m = false /\ last (messages e') = Some (Completion m) /\
      (llm_calls e < llm_calls e')%nat
  | (e', Returned (Text s)) =>
      s = sentinel /\ llm_calls e' = (llm_calls e + remaining)%nat
  | _ => True
  end.
Proof.
  revert e. induction remaining as [|remaining IH]; intros e; simpl.
  - split; [done | lia].
  - destruct (llm (messages e) tools) as [m|text]; simpl; [|done].
    destruct (has_tool_calls m) eqn:Hm; simpl.
    + pose proof (dispatch_all_extends call session (default [] (tool_calls m))
                    (append (Completion m) (asked e))) as [Hn _].
      destruct (dispatch_all _ _ _ _) as [e1 [[]|x|]]; simpl in *; try done.
      specialize (IH e1). destruct (loop _ _ _ _ _ e1) as [e2 [[m2|s]|x|]]; try done.
      * destruct IH as (? & ? & ?). repeat split; try done. lia.
      * destruct IH as [-> ->]. split; [done | lia].
    + rewrite last_snoc. repeat split; try done. lia.
Qed.

(** X8: what a run of the lesson-2 agent can return.  A message that it
    returns carries no tool call, is the last entry of the conversation,
    and was obtained by asking the model at least once.  A string that
    it returns is the sentinel, and the model was then asked exactly
    [max_iterations] times. *)
Theorem run_returns_final_answer_or_sentinel (self : Agent) (llm : chat) (call : transport)
    (session : ClientSession) (tools : list json) (conversation : list message) :
  match run self llm call session tools conversation with
  | (e, Returned (Message m)) =>
      has_tool_calls m = false /\ last (messages e) = Some (Completion m) /\
      (1 <= llm_calls e)%nat
  | (e, Returned (Text s)) => s = sentinel /\ llm_calls e = max_iterations self
  | _ => True
  end.
Proof.
  unfold run.
  pose proof (loop_outcome llm call session tools (max_iterations self) (start conversation)) as H.
  destruct (loop _ _ _ _ _ _) as [e [[m|s]|x|]]; try done;
    destruct H as (? & ? & ?); repeat split; try done; simpl in *; lia.
Qed.

(** X9: a round of tool calls that ends without an exception has dispatched
    every call of the answer, in the order of the answer, each with its
    parsed arguments, and has appended one tool message per call, in the
    same order, named after the call and holding the text of its
    result. *)
Theorem dispatch_all_keeps_the_order (call : transport) (session : ClientSession)
    (calls : list ChatCompletionMessageToolCall) (e e' : exec) :
  dispatch_all call session calls e = (e', Returned tt) ->
  exists results : list (json * CallToolResult),
    Forall2 (fun tc r =>
               loads (arguments_text tc) = Value (fst r) /\
               call session (name (function tc)) (fst r) = Reply (snd r)) calls results /\
    dispatched e' =
      dispatched e ++ zip_with (fun tc r => (name (function tc), fst r)) calls results /\
    messages e' =
      messages e ++
      zip_with (fun tc r =>
                  tool_message (name (function tc)) (mcp_tool_response_to_text (snd r)))
        calls results /\
    llm_calls e' = llm_calls e.
Proof.
  revert e. induction calls as [|tc calls IH]; intros e; simpl.
  - intros [= <-]. exists []. by rewrite !app_nil_r.
  - destruct (loads (arguments_text tc)) as [v| |] eqn:Hv; try done.
    destruct (call session (name (function tc)) v) as [r|text] eqn:Hr; [|done].
    intros H. apply IH in H as (results & HF & Hd & Hm & Hn).
    exists ((v, r) :: results). split; [by constructor|].
    simpl in *. rewrite Hd, Hm, <- !app_assoc. done.
Qed.

Lemma dispatch_all_keeps_the_order_witness :
  exists results : list (json * CallToolResult),
    dispatched
      (fst (dispatch_all structured_server local_session
              (default [] (tool_calls (tool_call_with (py "{}")))) (start []))) =
    zip_with (fun tc r => (name (function tc), fst r))
      (default [] (tool_calls (tool_call_with (py "{}")))) results /\
    length results = 1%nat.
Proof.
  destruct (dispatch_all_keeps_the_order structured_server local_session
              (default [] (tool_calls (tool_call_with (py "{}")))) (start [])
              (fst (dispatch_all structured_server local_session
                      (default [] (tool_calls (tool_call_with (py "{}")))) (start []))))
    as (results & HF & Hd & _ & _).
  - by vm_compute.
  - exists results. split; [done|]. apply Forall2_length in HF. by rewrite <- HF.
Defined.

End LoopInvariants.

Section SingleShot.
Import Json Mcp OpenAI Lesson1.

Local Ltac unchanged := left; split; [reflexivity | split; [reflexivity | simpl; lia]].

(** X10: every run of the lesson-1 agent, however it ends, either leaves the
    conversation as it was, having asked the model once, or has
    dispatched one tool call, appended the assistant message recording
    it and the tool message with its result, and asked the model a
    second time.  So the model is asked at most twice and at most one
    tool call is dispatched; the sentinel string is returned only in the
    first case, with no dispatch. *)
Theorem single_shot_asks_at_most_twice (llm : chat) (service : weather)
    (conversation : list message) :
  let e := fst (run llm service conversation) in
  let r := snd (run llm service conversation) in
  ((messages e = conversation /\ llm_calls e = 1%nat /\ (length (dispatched e) <= 1)%nat) \/
   (exists function_name function_args content,
      messages e = conversation ++ [assistant_message function_name function_args;
                                    tool_message function_name content] /\
      llm_calls e = 2%nat /\ dispatched e = [(function_name, function_args)])) /\
  match r with
  | Returned (Text s) => s = sentinel /\ messages e = conversation /\ dispatched e = []
  | _ => True
  end.
Proof.
  unfold run. simpl.
  destruct (llm conversation tools) as [response|text]; simpl; [|split; [unchanged | done]].
  destruct (tool_calls response) as [[|tool_call others]|]; simpl.
  1,3: split; [unchanged | done].
  destruct (loads (arguments (function tool_call))) as [function_args| |]; simpl.
  2,3: split; [unchanged | done].
  destruct (bind_call _ function_args) as [city|x|]; simpl.
  2,3: split; [unchanged | done].
  unfold get_weather. destruct (service city) as [temperature|text]; simpl.
  2: split; [unchanged | done].
  destruct (llm _ tools) as [second|text]; simpl.
  all: split; [right; eexists _, _, _; rewrite <- app_assoc; simpl; eauto | done].
Qed.

(** X11: the three ways in which the first tool call can be unusable, in the
    order in which the agent meets them: arguments that are not JSON
    raise [JSONDecodeError], whatever the function name; a function
    other than [get_weather] raises [KeyError] with its name; arguments
    other than a mapping with the one key [city] raise [TypeError].  In
    each case the weather service is not called, the model is not asked
    again and the conversation is left as it was. *)
Theorem single_shot_rejects_unusable_calls (llm : chat) (service : weather)
    (conversation : list message) (response : ChatCompletionMessage)
    (tool_call : ChatCompletionMessageToolCall)
    (others : list ChatCompletionMessageToolCall) :
  llm conversation tools = Reply response ->
  tool_calls response = Some (tool_call :: others) ->
  let untouched := {| messages := conversation; llm_calls := 1; dispatched := [] |} in
  (loads (arguments (function tool_call)) = DecodeError ->
   run llm service conversation = (untouched, Raised JSONDecodeError)) /\
  (forall function_args,
     loads (arguments (function tool_call)) = Value function_args ->
     name (function tool_call) <> py "get_weather" ->
     run llm service conversation = (untouched, Raised (KeyError (name (function tool_call))))) /\
  (forall function_args,
     loads (arguments (function tool_call)) = Value function_args ->
     name (function tool_call) = py "get_weather" ->
     (forall city, function_args <> JObj [(py "city", city)]) ->
     run llm service conversation = (untouched, Raised TypeError)).
Proof.
  intros Hllm Hcalls untouched. unfold run. simpl. rewrite Hllm, Hcalls.
  split; [|split].
  - by intros ->.
  - intros function_args -> Hname. unfold bind_call. by rewrite decide_False.
  - intros function_args -> Hname Hargs. unfold bind_call. rewrite decide_True; [|done].
    destruct function_args as [| | | | |[|[k city] [|]]]; try done.
    destruct (decide (k = py "city")) as [->|]; [|done]. by destruct (Hargs city).
Qed.

Lemma single_shot_rejects_unusable_calls_witness :
  run Lesson2.garbling_llm scripted_weather question =
  ({| messages := question; llm_calls := 1; dispatched := [] |}, Raised JSONDecodeError).
Proof.
  refine (proj1 (single_shot_rejects_unusable_calls Lesson2.garbling_llm scripted_weather
                   question (Lesson2.tool_call_with (py "{"))
                   {| id := py "call_0"; type := py "function";
                      function := {| name := py "get_weather"; arguments := py "{" |} |}
                   [] eq_refl eq_refl) _).
  by vm_compute.
Defined.

End SingleShot.

(** ** More on the response adapters *)

Section AdapterShape.
Import Json OpenAI Adapter.


Lemma imap_convert_names (tcs : list OllamaToolCall) (k : nat) :
  map (fun c => name (function c)) (imap (fun i => convert_tool_call (k + i)) tcs) =
  map (fun tc => default [] (f_name (default empty_function (tc_function tc)))) tcs.
Proof.
  revert k. induction tcs as [|tc tcs IH]; intros k; simpl; [done|]. f_equal.
  rewrite <- (IH (S k)). f_equal. apply imap_ext. intros i x _. simpl. f_equal. lia.
Qed.

Lemma imap_convert_types (tcs : list OllamaToolCall) (k : nat) :
  Forall (fun c => type c = py "function") (imap (fun i => convert_tool_call (k + i)) tcs).
Proof.
  apply Forall_lookup. intros i c. rewrite list_lookup_imap.
  destruct (tcs !! i); simpl; [|done]. by intros [= <-].
Qed.

(** X13: the message that an adapter builds is an assistant message whose
    content is never the empty string and whose tool-call list is never
    empty: both are [None] instead.  When it has tool calls, they are
    the calls of the backend's message, one for one and in the same
    order, each of type [function] and named as the backend named it (an
    absent name becoming the empty string). *)
Theorem adapted_message_has_no_empty_field (response : OllamaResponse) :
  let m := c_message (OllamaClient._to_openai_format response) in
  role m = py "assistant" /\
  content m <> Some [] /\
  tool_calls m <> Some [] /\
  match tool_calls m with
  | Some calls =>
      exists message tcs,
        r_message response = Some message /\ m_tool_calls message = Some tcs /\
        map (fun c => name (function c)) calls =
          map (fun tc => default [] (f_name (default empty_function (tc_function tc)))) tcs /\
        Forall (fun c => type c = py "function") calls
  | None => True
  end.
Proof.
  intros m. subst m. unfold OllamaClient._to_openai_format. cbn [c_message role content tool_calls].
  split; [done|]. split; [|split].
  - unfold resolve_content.
    destruct (m_content _) as [[|c s]|], (m_thinking _) as [[|c' s']|]; simpl; congruence.
  - unfold OllamaClient._convert_tool_calls.
    destruct (m_tool_calls _) as [[|tc tcs]|]; simpl; congruence.
  - destruct (r_message response) as [message|]; simpl; [|done].
    unfold OllamaClient._convert_tool_calls.
    destruct (m_tool_calls message) as [[|tc tcs]|] eqn:Htcs; try done.
    cbn [imap]. exists message, (tc :: tcs). split; [done|]. split; [done|]. split.
    + apply (imap_convert_names (tc :: tcs) 0).
    + apply (imap_convert_types (tc :: tcs) 0).
Qed.

Lemma int_repr_inj (a b : Z) : int_repr a = int_repr b -> a = b.
Proof.
  intros H. pose proof (scan_number_repr a [] I) as Ha.
  pose proof (scan_number_repr b [] I) as Hb. rewrite H, Hb in Ha. by injection Ha.
Qed.

(** X14: when the backend gives none of its tool calls an id, the adapters
    number them: the call at position [i] gets the id [call_i], in
    decimal, and no two calls of the message share an id. *)
Theorem default_ids_are_distinct (tcs : list OllamaToolCall) :
  Forall (fun tc => tc_id tc = None) tcs ->
  let calls := default [] (OllamaClient._convert_tool_calls (Some tcs)) in
  length calls = length tcs /\
  (forall i c, calls !! i = Some c -> id c = py "call_" ++ int_repr (Z.of_nat i)) /\
  NoDup (map id calls).
Proof.
  intros Hids calls.
  assert (calls = imap convert_tool_call tcs) as ->.
  { subst calls. unfold OllamaClient._convert_tool_calls. by destruct tcs. }
  assert (forall i c, imap convert_tool_call tcs !! i = Some c ->
                      id c = py "call_" ++ int_repr (Z.of_nat i)) as Hi.
  { intros i c. rewrite list_lookup_imap.
    destruct (tcs !! i) as [tc|] eqn:Htc; simpl; [|done]. intros [= <-].
    unfold convert_tool_call. simpl.
    apply (proj1 (Forall_lookup _ _) Hids) in Htc. by rewrite Htc. }
  split; [apply length_imap|]. split; [done|].
  apply NoDup_alt. intros i j x. rewrite !list_lookup_fmap.
  destruct (imap convert_tool_call tcs !! i) as [ci|] eqn:Hci; simpl; [|done].
  destruct (imap convert_tool_call tcs !! j) as [cj|] eqn:Hcj; simpl; [|done].
  intros [= <-] [= Hx]. rewrite (Hi _ _ Hci), (Hi _ _ Hcj) in Hx.
  apply app_inv_head, int_repr_inj in Hx. lia.
Qed.

Lemma default_ids_are_distinct_witness :
  NoDup (map id (default []
    (OllamaClient._convert_tool_calls
       (Some [{| tc_id := None; tc_function := None |};
              {| tc_id := None; tc_function := None |}])))).
Proof.
  apply (default_ids_are_distinct
           [{| tc_id := None; tc_function := None |}; {| tc_id := None; tc_function := None |}]).
  repeat constructor.
Defined.

End AdapterShape.

(** ** The constructors of the clients *)

Section ClientSetup.
Import Setup.

Lemma startswith_app (old s : str) : startswith old (old ++ s) = true.
Proof. induction old as [|c old IH]; simpl; [by destruct s|]. by rewrite N.eqb_refl. Qed.

Lemma remove_from_absent (fuel : nat) (old s : str) :
  contains old s = false -> remove_from fuel old s = s.
Proof.
  revert s. induction fuel as [|fuel IH]; intros s; [done|].
  destruct s as [|c r]; [done|]. cbn [contains remove_from].
  intros H. apply orb_false_iff in H as [-> H]. by rewrite IH.
Qed.

Lemma remove_prefix (old s : str) :
  old <> [] -> contains old s = false -> remove old (old ++ s) = s.
Proof.
  intros Hold Hs. unfold remove. destruct old as [|c old]; [done|].
  cbn [app length remove_from]. change (c :: old ++ s) with ((c :: old) ++ s).
  rewrite startswith_app. change (S (length old)) with (length (c :: old)).
  rewrite drop_app_length. by apply remove_from_absent.
Qed.

Lemma contains_startswith (old s : str) : contains old s = false -> startswith old s = false.
Proof. destruct s; simpl; intros H; by apply orb_false_iff in H as [-> _]. Qed.

(** X15: a model name that starts with [ollama/], and holds that text nowhere
    else, is sent to Ollama without the prefix by both clients, while
    [LLMClient] keeps the full name for LiteLLM; a name that does not
    hold [ollama/] is kept as it is.  [LLMClient] talks to Ollama
    directly only if it was asked to and the name has the prefix. *)
Theorem provider_prefix_is_stripped (name env_url : str) (base_url : option str)
    (use_direct_ollama : bool) :
  contains (py "ollama/") name = false ->
  OllamaClient.model (OllamaClient.__init__ env_url (py "ollama/" ++ name) base_url) = name /\
  OllamaClient.model (OllamaClient.__init__ env_url name base_url) = name /\
  LLMClient.ollama_model (LLMClient.__init__ (py "ollama/" ++ name) use_direct_ollama) = name /\
  LLMClient.llm_model (LLMClient.__init__ (py "ollama/" ++ name) use_direct_ollama) =
    py "ollama/" ++ name /\
  LLMClient.use_direct_ollama (LLMClient.__init__ (py "ollama/" ++ name) use_direct_ollama) =
    use_direct_ollama /\
  LLMClient.use_direct_ollama (LLMClient.__init__ name use_direct_ollama) = false.
Proof.
  intros Hname. pose proof (contains_startswith _ _ Hname) as Hstart.
  assert (strip_provider (py "ollama/" ++ name) = name) as Hstrip.
  { unfold strip_provider. rewrite startswith_app. by apply remove_prefix. }
  assert (strip_provider name = name) as Hkeep.
  { unfold strip_provider. by rewrite Hstart. }
  unfold OllamaClient.__init__, LLMClient.__init__.
  cbn [OllamaClient.model LLMClient.ollama_model LLMClient.llm_model
       LLMClient.use_direct_ollama].
  rewrite Hstrip, Hkeep, startswith_app, Hstart.
  repeat split; try done; by destruct use_direct_ollama.
Qed.

Lemma provider_prefix_is_stripped_witness :
  OllamaClient.model (OllamaClient.__init__ (py "http://localhost:11434")
                        (py "ollama/" ++ py "qwen3:4b") None) = py "qwen3:4b".
Proof.
  apply (provider_prefix_is_stripped (py "qwen3:4b") (py "http://localhost:11434") None true).
  by vm_compute.
Defined.

(** The text is removed wherever it stands, not at the start only. *)
Example strip_provider_inside :
  strip_provider (py "ollama/library/ollama/qwen3") = py "library/qwen3".
Proof. by vm_compute. Qed.

End ClientSetup.

(** ** More on the weather graph *)

Section GraphNodes.
Import Json Graph Nodes.

Lemma existsb_elem (f : str -> bool) (l : list str) (x : str) :
  x ∈ l -> f x = true -> existsb f l = true.
Proof. intros Hx Hf. apply existsb_exists. exists x. by rewrite <- list_elem_of_In. Qed.

(** X16: a negative indicator wins over every positive one: when the
    lower-cased answer of the database agent holds one of the
    [no_cache_indicators], every requested city is reported missing and
    none cached, whatever else the answer says.  As [missing] is one of
    them, the answer in the format the node itself asks for when all
    cities are cached, which ends in [MISSING: none], makes the node
    report all cities as missing. *)
Theorem negative_indicators_win (lower : str -> str) (cities : list str)
    (last_message : agent_message) (indicator : str) :
  indicator ∈ no_cache_indicators ->
  contains indicator
    (lower match last_message with WithContent c => c | Other shown => shown end) = true ->
  let out := CheckCacheNode lower cities last_message in
  missing_cities out = cities /\ cached_cities out = [] /\
  (needs_fetch out = true <-> cities <> []).
Proof.
  intros Hin Hc out. subst out. unfold CheckCacheNode.
  cbn [cached_cities missing_cities needs_fetch].
  rewrite (existsb_elem _ _ _ Hin Hc). cbn [orb].
  split; [done|]. split; [done|]. by destruct cities.
Qed.

Lemma negative_indicators_win_witness :
  missing_cities
    (CheckCacheNode ascii_lower [py "Bratislava"; py "Vienna"] all_cached_answer) =
  [py "Bratislava"; py "Vienna"].
Proof.
  apply (negative_indicators_win ascii_lower [py "Bratislava"; py "Vienna"] all_cached_answer
           (py "missing")).
  - unfold no_cache_indicators. rewrite !elem_of_cons. do 9 right. by left.
  - by vm_compute.
Defined.

Lemma contains_capital (needle s : str) (c : N) (rest : str) :
  needle = c :: rest ->
  forallb (fun x => negb (x =? c)%N) s = true ->
  contains needle s = false.
Proof.
  intros ->. induction s as [|x s IH]; simpl; [done|].
  intros H. apply andb_true_iff in H as [Hx Hs]. rewrite (IH Hs), orb_false_r.
  apply negb_true_iff in Hx. rewrite N.eqb_sym in Hx. by rewrite Hx.
Qed.

(** X17: the indicator [CACHED: none], written in capitals, is compared with
    the lower-cased answer: it matches no text without a capital C. *)
Theorem capital_indicator_never_matches (lower : str -> str) (text : str) :
  forallb (fun x => negb (x =? 67)%N) (lower text) = true ->
  py "CACHED: none" ∈ no_cache_indicators /\
  contains (py "CACHED: none") (lower text) = false.
Proof.
  intros H. split.
  - unfold no_cache_indicators. rewrite !elem_of_cons. do 10 right. by left.
  - by apply (contains_capital _ _ 67%N (py "ACHED: none")).
Qed.

Lemma capital_indicator_never_matches_witness :
  contains (py "CACHED: none") (ascii_lower (py "CACHED: none")) = false.
Proof.
  apply (capital_indicator_never_matches ascii_lower (py "CACHED: none")). by vm_compute.
Defined.

Lemma find_user_message_skips (pre : list state_message) (rest : list state_message) :
  forallb (fun msg => negb (is_user msg)) pre = true ->
  find_user_message (pre ++ rest) = find_user_message rest.
Proof.
  induction pre as [|msg pre IH]; simpl; [done|].
  intros H. apply andb_true_iff in H as [Hm Hp]. apply negb_true_iff in Hm.
  by rewrite Hm, IH.
Qed.

(** X18: the node that extracts the cities reads the first dict of the
    conversation whose role is [user], and nothing else of it: what
    stands before and after that entry does not matter.  Without such an
    entry the model is not consulted, and the node answers with no city
    and today's date. *)
Theorem extraction_reads_the_first_user_message (today : str) (chain : extractor)
    (pre post : list state_message) (d : list (str * json)) :
  forallb (fun msg => negb (is_user msg)) pre = true ->
  is_user (DictMessage d) = true ->
  ExtractCitiesNode today chain (pre ++ DictMessage d :: post) =
    ExtractCitiesNode today chain [DictMessage d] /\
  ExtractCitiesNode today chain pre = Returned {| cities := []; weather_date := today |}.
Proof.
  intros Hpre Hd. split.
  - unfold ExtractCitiesNode.
    assert (find_user_message (pre ++ DictMessage d :: post) =
            find_user_message [DictMessage d]) as ->.
    { rewrite find_user_message_skips by done. cbn [find_user_message]. by rewrite Hd. }
    by destruct pre.
  - unfold ExtractCitiesNode.
    assert (find_user_message pre = JNull) as ->.
    { rewrite <- (app_nil_r pre). by rewrite find_user_message_skips. }
    by destruct pre.
Qed.

Lemma extraction_reads_the_first_user_message_witness :
  ExtractCitiesNode (py "2025-01-01")
    (fun _ => Reply (Some {| cities := [py "Bratislava"]; weather_date := py "2025-01-02" |}))
    ([ObjectMessage (WithContent (py "hello"))] ++
     DictMessage [(py "role", JStr (py "user")); (py "content", JStr (py "Bratislava?"))] ::
     [DictMessage [(py "role", JStr (py "user")); (py "content", JStr (py "Vienna?"))]]) =
  Returned {| cities := [py "Bratislava"]; weather_date := py "2025-01-02" |}.
Proof.
  rewrite (proj1 (extraction_reads_the_first_user_message (py "2025-01-01")
             (fun _ => Reply (Some {| cities := [py "Bratislava"];
                                      weather_date := py "2025-01-02" |}))
             [ObjectMessage (WithContent (py "hello"))]
             [DictMessage [(py "role", JStr (py "user")); (py "content", JStr (py "Vienna?"))]]
             [(py "role", JStr (py "user")); (py "content", JStr (py "Bratislava?"))]
             eq_refl eq_refl)).
  by vm_compute.
Defined.

(** X19: the cache check, the router and the fetch node fit together: when
    the router sends the output of the cache check to [fetch_weather],
    the list of missing cities is the whole, non-empty list of requested
    cities, so the fetch node does not take its [No cities to fetch.]
    exit: it asks the weather agent, once, for all requested cities.
    When the router answers [compile_results], no city is missing. *)
Theorem routed_fetch_asks_for_every_city (lower : str -> str) (cities : list str)
    (last_message : agent_message) (weather_agent : sub_agent) (weather_date : str) :
  let out := CheckCacheNode lower cities last_message in
  (needs_fetch_router (needs_fetch out) = py "fetch_weather" ->
   cities <> [] /\
   FetchWeatherNode weather_agent (missing_cities out) weather_date =
     match weather_agent (fetch_content cities weather_date) with
     | Failure text => Raised (Remote text)
     | Reply answer => Returned [ObjectMessage answer]
     end) /\
  (needs_fetch_router (needs_fetch out) = py "compile_results" -> missing_cities out = []).
Proof.
  intros out. subst out. unfold CheckCacheNode.
  cbn [cached_cities missing_cities needs_fetch].
  set (no_cache := existsb _ no_cache_indicators).
  set (found := existsb _ found_indicators).
  destruct (no_cache || negb (found && negb no_cache)); destruct cities as [|city cities];
    simpl; split; intros H; try done; by vm_compute in H.
Qed.

Lemma routed_fetch_asks_for_every_city_witness :
  FetchWeatherNode echo_agent
    (missing_cities (CheckCacheNode ascii_lower [py "Bratislava"; py "Vienna"] all_cached_answer))
    (py "2025-01-01") =
  Returned [ObjectMessage
              (WithContent (fetch_content [py "Bratislava"; py "Vienna"] (py "2025-01-01")))].
Proof.
  refine (proj2 (proj1 (routed_fetch_asks_for_every_city ascii_lower
                          [py "Bratislava"; py "Vienna"] all_cached_answer echo_agent
                          (py "2025-01-01")) _)).
  by vm_compute.
Defined.

End GraphNodes.

(** ** The tool list and the texts handed to the model *)

Section ToolTexts.
Import Json Mcp OpenAI Lesson2Tools.

Lemma tool_name_function_tool (name desc params : json) :
  tool_name (function_tool name desc params) = Some name.
Proof. reflexivity. Qed.

Lemma tool_parameters_function_tool (name desc params : json) :
  exists p, tool_parameters (function_tool name desc params) = Some p /\ truth p = true.
Proof.
  exists (if truth params then params else _EMPTY_SCHEMA). split; [reflexivity|].
  by destruct (truth params) eqn:E.
Qed.

Lemma _extract_tool_info_returns (t : tool) :
  float_schema t = false ->
  exists desc params, _extract_tool_info t = Returned (raw_name t, desc, params).
Proof.
  unfold float_schema, _extract_tool_info, _to_json_schema.
  destruct (raw_schema t) as [[| | |text| |]|dumped]; eauto.
  destruct (loads text); eauto. done.
Qed.

(** X20: the tool list handed to the model holds one function definition for
    each tool that has a name (a truthy one), in the order of the
    server's list; tools without a name are left out.  Every definition
    has type [function] and a non-empty [parameters] schema: a missing
    or empty schema, and a schema text that is not JSON, are replaced by
    the empty object schema.  The conversion raises nothing. *)
Theorem nameless_tools_are_dropped (tools_src : list tool) :
  forallb (fun t => negb (float_schema t)) tools_src = true ->
  exists result,
    mcp_tools_to_openai tools_src = Returned result /\
    omap tool_name result = filter (fun n => truth n = true) (map raw_name tools_src) /\
    Forall (fun d => field (py "type") d = Some (JStr (py "function")) /\
                     exists p, tool_parameters d = Some p /\ truth p = true) result.
Proof.
  induction tools_src as [|t rest IH]; simpl.
  - intros _. exists []. by repeat split.
  - intros H. apply andb_true_iff in H as [Ht Hrest]. apply negb_true_iff in Ht.
    destruct (IH Hrest) as (result & -> & Hnames & Hshape).
    destruct (_extract_tool_info_returns t Ht) as (desc & params & ->).
    rewrite filter_cons. destruct (truth (raw_name t)) eqn:Hn.
    + exists (function_tool (raw_name t) desc params :: result).
      rewrite decide_True by done. split; [done|]. split.
      * cbn [omap list_omap]. rewrite tool_name_function_tool. by f_equal.
      * constructor; [|done]. split; [reflexivity | apply tool_parameters_function_tool].
    + exists result. rewrite decide_False by done. done.
Qed.

Lemma nameless_tools_are_dropped_witness :
  exists result,
    mcp_tools_to_openai sample_tools = Returned result /\
    omap tool_name result =
      [JStr (py "get_forecast"); JStr (py "get_current_temperature")] /\
    omap tool_parameters result = [_EMPTY_SCHEMA; _EMPTY_SCHEMA].
Proof.
  destruct (nameless_tools_are_dropped sample_tools) as (result & Hr & Hn & _);
    [by vm_compute|].
  exists result. split; [done|]. split.
  - rewrite Hn. by vm_compute.
  - assert (Returned result =
            Returned [function_tool (JStr (py "get_forecast")) (JStr []) _EMPTY_SCHEMA;
                      function_tool (JStr (py "get_current_temperature")) (JStr []) (JObj [])])
      as [= ->] by (rewrite <- Hr; by vm_compute).
    by vm_compute.
Defined.

(** X21: the text that lesson 2 hands to the model for a tool result with a
    structured payload is a JSON text that parses back to that payload,
    for every payload of null, booleans, integers, strings of Unicode
    scalar values, arrays and objects with distinct keys. *)
Theorem structured_result_parses_back (resp : CallToolResult) (sc : json) :
  structuredContent resp = Some sc ->
  valid sc = true ->
  loads (Lesson2.mcp_tool_response_to_text resp) = Value sc.
Proof.
  intros Hsc Hv. unfold Lesson2.mcp_tool_response_to_text. rewrite Hsc. by apply loads_dumps.
Qed.

Lemma structured_result_parses_back_witness :
  loads (Lesson2.mcp_tool_response_to_text Lesson2.structured_reply) =
  Value (JObj [(py "temperature", JInt 21)]).
Proof.
  apply (structured_result_parses_back Lesson2.structured_reply
           (JObj [(py "temperature", JInt 21)])); by vm_compute.
Defined.



End ToolTexts.

(** ** The texts written with [json.dumps] *)

Section AsciiTexts.
Import Json OpenAI Adapter.
Local Open Scope N_scope.

Abbreviation all_printable := (Forall (fun c : N => printable c = true)).

Lemma hex_digit_printable d : d < 16 -> printable (hex_digit d) = true.
Proof.
  intros Hd. unfold printable, hex_digit. destruct (N.ltb_spec d 10);
    apply andb_true_iff; split; apply N.leb_le; lia.
Qed.

Lemma hex4_printable n : all_printable (hex4 n).
Proof.
  unfold hex4. do 4 (constructor; [apply hex_digit_printable; by apply N.mod_lt|]).
  constructor.
Qed.

Lemma u_escape_printable n : all_printable (u_escape n).
Proof. unfold u_escape. do 2 (constructor; [done|]). apply hex4_printable. Qed.

Lemma escape_char_printable c : all_printable (escape_char true c).
Proof.
  unfold escape_char, escape_short.
  destruct (c =? 92); [by repeat constructor|].
  destruct (c =? 34); [by repeat constructor|].
  destruct (c =? 8); [by repeat constructor|].
  destruct (c =? 12); [by repeat constructor|].
  destruct (c =? 10); [by repeat constructor|].
  destruct (c =? 13); [by repeat constructor|].
  destruct (c =? 9); [by repeat constructor|].
  destruct (N.ltb_spec c 32); [apply u_escape_printable|].
  cbn [andb]. destruct (N.ltb_spec 126 c).
  - destruct (c <? 65536); [apply u_escape_printable|].
    apply Forall_app; split; apply u_escape_printable.
  - constructor; [|constructor]. unfold printable. apply andb_true_iff.
    split; apply N.leb_le; lia.
Qed.

Lemma encode_basestring_printable s : all_printable (encode_basestring true s).
Proof.
  unfold encode_basestring. constructor; [done|]. apply Forall_app. split; [|by repeat constructor].
  induction s as [|c s IH]; simpl; [done|]. apply Forall_app. split; [apply escape_char_printable | done].
Qed.

Lemma uint_chars_printable u : all_printable (uint_chars u).
Proof. induction u; simpl; by constructor. Qed.

Lemma int_repr_printable z : all_printable (int_repr z).
Proof.
  unfold int_repr. destruct (Z.to_int z); [|constructor; [done|]]; apply uint_chars_printable.
Qed.

Lemma join_printable sep (parts : list str) :
  all_printable sep -> Forall all_printable parts -> all_printable (join sep parts).
Proof.
  intros Hsep. induction 1 as [|p parts Hp Hparts IH]; simpl; [done|].
  destruct parts as [|q parts]; [done|]. apply Forall_app. split; [done|].
  apply Forall_app. by split.
Qed.

Lemma dumps_printable v : all_printable (dumps true v).
Proof.
  assert (all_printable (py ", ")) as Hcomma by (vm_compute; repeat constructor).
  assert (all_printable (py ": ")) as Hcolon by (vm_compute; repeat constructor).
  induction v as [| b | n | s | items IH | members IH] using json_ind; cbn [dumps].
  - vm_compute. repeat constructor.
  - destruct b; vm_compute; repeat constructor.
  - apply int_repr_printable.
  - apply encode_basestring_printable.
  - constructor; [done|]. apply Forall_app. split; [|by constructor].
    apply join_printable; [done|]. by apply Forall_fmap.
  - constructor; [done|]. apply Forall_app. split; [|by constructor].
    apply join_printable; [done|].
    apply Forall_fmap. eapply Forall_impl; [apply IH|]. intros [k x] Hx. cbn [fst snd] in *.
    apply Forall_app. split; [apply encode_basestring_printable|].
    apply Forall_app. by split.
Qed.

(** X23: the arguments text that the adapters write for a mapping is made of
    printable ASCII characters only, whatever strings the mapping holds:
    no line break, no control character and no character beyond the
    tilde is written as such. *)
Theorem mapping_arguments_are_printable_ascii (i : nat) (tc : OllamaToolCall)
    (func : OllamaFunction) (members : list (str * json)) :
  tc_function tc = Some func ->
  f_arguments func = Some (Mapping members) ->
  Forall (fun c => printable c = true) (arguments (function (convert_tool_call i tc))).
Proof.
  intros Hf Ha. unfold convert_tool_call. cbn [function arguments]. rewrite Hf.
  cbn [default Datatypes.id]. rewrite Ha. cbn [default Datatypes.id normalize_arguments].
  apply (dumps_printable (JObj members)).
Qed.

Lemma mapping_arguments_are_printable_ascii_witness :
  Forall (fun c => printable c = true)
    (arguments (function (convert_tool_call 0
       {| tc_id := None;
          tc_function :=
            Some {| f_name := Some (py "get_weather");
                    f_arguments := Some (Mapping [(py "city", JStr [75; 111; 353; 105; 99; 101])]) |}
       |}))).
Proof.
  apply (mapping_arguments_are_printable_ascii 0
           {| tc_id := None;
              tc_function :=
                Some {| f_name := Some (py "get_weather");
                        f_arguments :=
                          Some (Mapping [(py "city", JStr [75; 111; 353; 105; 99; 101])]) |} |}
           {| f_name := Some (py "get_weather");
              f_arguments := Some (Mapping [(py "city", JStr [75; 111; 353; 105; 99; 101])]) |}
           [(py "city", JStr [75; 111; 353; 105; 99; 101])]); reflexivity.
Defined.

End AsciiTexts.

Section EmptyArguments.
Import Json Mcp OpenAI.

(** X24: a tool call whose arguments text is empty: lesson 2 reads it as a
    call without arguments and dispatches it with the empty mapping,
    while lesson 1 hands the empty text to [json.loads] and raises
    [JSONDecodeError] before anything is dispatched. *)
Theorem empty_arguments_mean_no_arguments (llm : chat) (service : Lesson1.weather)
    (call : transport) (session : ClientSession) (conversation : list message)
    (response : ChatCompletionMessage) (tool_call : ChatCompletionMessageToolCall)
    (others : list ChatCompletionMessageToolCall) (e : exec) :
  arguments (function tool_call) = [] ->
  llm conversation Lesson1.tools = Reply response ->
  tool_calls response = Some (tool_call :: others) ->
  Lesson1.run llm service conversation =
    ({| messages := conversation; llm_calls := 1; dispatched := [] |}, Raised JSONDecodeError) /\
  Lesson2.dispatch_all call session [tool_call] e =
    match call session (name (function tool_call)) (JObj []) with
    | Reply tool_response =>
        (append (Lesson2.tool_message (name (function tool_call))
                   (Lesson2.mcp_tool_response_to_text tool_response))
           (called (name (function tool_call)) (JObj []) e), Returned tt)
    | Failure text => (called (name (function tool_call)) (JObj []) e, Raised (Remote text))
    end.
Proof.
  intros Ha Hllm Hcalls. split.
  - unfold Lesson1.run. simpl. by rewrite Hllm, Hcalls, Ha.
  - simpl. unfold Lesson2.arguments_text. rewrite Ha.
    change (loads (py "{}")) with (Value (JObj [])). cbv iota beta.
    by destruct (call session (name (function tool_call)) (JObj [])).
Qed.

Lemma empty_arguments_mean_no_arguments_witness :
  dispatched
    (fst (Lesson2.dispatch_all silent Lesson2.local_session
            [{| id := py "call_0"; type := py "function";
                function := {| name := py "get_weather"; arguments := [] |} |}] (start []))) =
  [(py "get_weather", JObj [])].
Proof.
  rewrite (proj2 (empty_arguments_mean_no_arguments
                    (fun _ _ => Reply (Lesson2.tool_call_with [])) Lesson1.scripted_weather
                    silent Lesson2.local_session []
                    (Lesson2.tool_call_with [])
                    {| id := py "call_0"; type := py "function";
                       function := {| name := py "get_weather"; arguments := [] |} |}
                    [] (start []) eq_refl eq_refl eq_refl)).
  reflexivity.
Defined.

End EmptyArguments.
